(** * The Pearl tutorial notebook [tutorials/lunar_lander/lunar_lander.ipynb]

    The notebook is a linear script: cell after cell it builds
    configuration objects of the pearl library, calls the library's
    training loop once per experiment, saves the returned series and
    plots it.  The development below embeds the notebook as a program in
    a state-and-exception monad over the kernel's globals, the working
    directory and the trace of calls that leave the notebook; the
    library itself (pearl, gymnasium, torch, matplotlib) is an
    interface whose operations are taken as given, the training loop
    apart, which is also modelled as the spec describes it. *)

From Stdlib Require Import ZArith Floats Ascii.
From stdpp Require Import base strings gmap list.

Set Warnings "-inexact-float".
Open Scope Z_scope.

(** ** Objects of the library, as the notebook constructs them *)

Section Objects.
Context {scalar space : Type}.

(** [GymEnvironment(env_str)]: the object and the identifier it wraps. *)
Record GymEnv := {
  env_id : nat;
  env_name : string;
}.

(** [VanillaQValueNetwork(state_dim=, action_dim=, hidden_dims=, output_dim=)] *)
Record q_value_network := {
  net_id : nat;
  net_state_dim : Z;
  net_action_dim : Z;
  net_hidden_dims : list Z;
  net_output_dim : Z;
}.

Inductive exploration_module :=
| EGreedyExploration (epsilon : float).

Inductive action_representation_module :=
| OneHotActionTensorRepresentationModule (max_number_actions : Z).

(** Keyword arguments of [DoubleDQN(...)]; a keyword that one of the
    two calls leaves out is an [option]. *)
Record DoubleDQN_kwargs := {
  dqn_state_dim : Z;
  dqn_action_space : space;
  dqn_batch_size : Z;
  dqn_training_rounds : Z;
  dqn_soft_update_tau : option float;
  dqn_learning_rate : option float;
  dqn_network_instance : q_value_network;
  dqn_exploration_module : option exploration_module;
  dqn_action_representation_module : action_representation_module;
}.

(** Keyword arguments of [ProximalPolicyOptimization(...)] and of
    [ContinuousProximalPolicyOptimization(...)]. *)
Record PPO_kwargs := {
  ppo_state_dim : Z;
  ppo_use_critic : bool;
  ppo_action_space : space;
  ppo_actor_hidden_dims : list Z;
  ppo_critic_hidden_dims : list Z;
  ppo_critic_learning_rate : float;
  ppo_actor_learning_rate : float;
  ppo_epsilon : option float;
  ppo_batch_size : Z;
  ppo_normalize_gae : option bool;
  ppo_training_rounds : Z;
  ppo_entropy_bonus_scaling : option float;
  ppo_action_representation_module : option action_representation_module;
}.

Inductive policy_learner :=
| DoubleDQN (kw : DoubleDQN_kwargs)
| ProximalPolicyOptimization (kw : PPO_kwargs)
| ContinuousProximalPolicyOptimization (kw : PPO_kwargs).

Inductive replay_buffer :=
| FIFOOffPolicyReplayBuffer (capacity : Z)
| OnPolicyReplayBuffer (capacity : Z).

(** [PearlAgent(policy_learner=, replay_buffer=)] *)
Record pearl_agent := {
  agent_id : nat;
  agent_policy_learner : policy_learner;
  agent_replay_buffer : replay_buffer;
}.

(** A call [online_learning(...)]: every parameter is a keyword, passed
    ([Some]) or left to the library's default ([None]). *)
Record online_learning_kwargs := {
  ol_agent : option pearl_agent;
  ol_env : option GymEnv;
  ol_number_of_episodes : option Z;
  ol_print_every_x_episodes : option Z;
  ol_learn_every_k_steps : option Z;
  ol_record_period : option Z;
  ol_learn_after_episode : option bool;
  ol_seed : option Z;
}.

(** The dictionary [online_learning] returns: keys in insertion order. *)
Definition info := list (string * list scalar).

Fixpoint dict_get (k : string) (d : info) : option (list scalar) :=
  match d with
  | [] => None
  | (k', v) :: d' => if String.eqb k k' then Some v else dict_get k d'
  end.

(** Values bound to the kernel's global names. *)
Inductive value :=
| VStr (s : string)
| VInts (l : list Z)
| VEnv (e : GymEnv)
| VNet (n : q_value_network)
| VAgent (a : pearl_agent)
| VInfo (i : info).

(** What an f-string interpolates in the notebook's [print] calls;
    [PHost] is a value read from the host (versions, CUDA). *)
Inductive printed :=
| PStr (s : string)
| PInt (z : Z)
| PBool (b : bool)
| PHost (expr : string).

Inductive plt_call :=
| plt_title (s : string)
| plt_xlabel (s : string)
| plt_ylabel (s : string)
| plt_legend
| plt_show.

(** Calls that leave the notebook, in the order they are made. *)
Inductive event :=
| EvMagic (line : string)
| EvSetSeed (seed : Z)
| EvPrint (text : string) (v : printed)
| EvGymEnvironment (e : GymEnv)
| EvClose (e : GymEnv)
| EvMakedirs (name : string) (exist_ok : bool)
| EvVanillaQValueNetwork (n : q_value_network)
| EvPearlAgent (a : pearl_agent)
| EvOnlineLearning (kw : online_learning_kwargs) (result : info)
| EvTorchSave (obj : list scalar) (f : string)
| EvPlot (x : list Z) (y : list scalar) (label : string)
| EvPlt (c : plt_call).
End Objects.

Arguments GymEnv : clear implicits.
Arguments q_value_network : clear implicits.
Arguments exploration_module : clear implicits.
Arguments action_representation_module : clear implicits.
Arguments DoubleDQN_kwargs : clear implicits.
Arguments PPO_kwargs : clear implicits.
Arguments policy_learner : clear implicits.
Arguments replay_buffer : clear implicits.
Arguments pearl_agent : clear implicits.
Arguments online_learning_kwargs : clear implicits.
Arguments info : clear implicits.
Arguments value : clear implicits.
Arguments event : clear implicits.

(** ** The library interface

    The notebook only calls pearl, gymnasium, torch and matplotlib;
    their code is not part of what is verified here.  [lib_state] is
    whatever the library keeps behind its objects (random generators,
    simulators, network weights); each call may read and change it.
    Attribute reads such as [env.action_space.n] are taken to succeed. *)

Class Library (scalar space lib_state : Type) := {
  observation_space : GymEnv → space;
  action_space : GymEnv → space;
  shape0 : space → Z;
  space_n : space → Z;
  action_dim : space → Z;
  is_continuous : space → bool;
  lib_set_seed : Z → lib_state → lib_state;
  lib_GymEnvironment : GymEnv → lib_state → lib_state;
  lib_close : GymEnv → lib_state → lib_state;
  lib_VanillaQValueNetwork : q_value_network → lib_state → lib_state;
  lib_PearlAgent : pearl_agent space → lib_state → lib_state;
  training_returns : online_learning_kwargs space → lib_state → list scalar;
  training_stats : online_learning_kwargs space → lib_state → info scalar;
  training_state : online_learning_kwargs space → lib_state → lib_state;
}.

(** ** The kernel and its monad *)

Inductive exception :=
| NameError (name : string)
| TypeError (name : string)
| KeyError (key : string)
| FileExistsError (path : string)
| RuntimeError (msg : string).

(** The working directory: the directories that exist and the files
    [torch.save] has written. *)
Record filesystem {scalar : Type} := {
  fs_dirs : gset string;
  fs_files : gmap string (list scalar);
}.
Arguments filesystem : clear implicits.

Section Kernel.
Context {scalar space lib_state : Type}.

Record world := {
  globals : gmap string (value scalar space);
  next_id : nat;
  lib : lib_state;
  fs : filesystem scalar;
  cell : nat;
  log : list (nat * event scalar space);
}.

Inductive outcome (A : Type) :=
| Ok (a : A) (w : world)
| Raise (e : exception) (w : world).
Arguments Ok {A} a w.
Arguments Raise {A} e w.

Definition M (A : Type) : Type := world → outcome A.

Definition ret {A} (a : A) : M A := λ w, Ok a w.

Definition bind {A B} (m : M A) (k : A → M B) : M B :=
  λ w, match m w with
       | Ok a w' => k a w'
       | Raise e w' => Raise e w'
       end.

Definition raise {A} (e : exception) : M A := λ w, Raise e w.

Definition final {A} (o : outcome A) : world :=
  match o with Ok _ w => w | Raise _ w => w end.

Definition succeeded {A} (o : outcome A) : bool :=
  match o with Ok _ _ => true | Raise _ _ => false end.

Definition set_globals g (w : world) : world :=
  {| globals := g; next_id := next_id w; lib := lib w; fs := fs w;
     cell := cell w; log := log w |}.
Definition set_next_id n (w : world) : world :=
  {| globals := globals w; next_id := n; lib := lib w; fs := fs w;
     cell := cell w; log := log w |}.
Definition set_lib s (w : world) : world :=
  {| globals := globals w; next_id := next_id w; lib := s; fs := fs w;
     cell := cell w; log := log w |}.
Definition set_fs f (w : world) : world :=
  {| globals := globals w; next_id := next_id w; lib := lib w; fs := f;
     cell := cell w; log := log w |}.
Definition set_cell c (w : world) : world :=
  {| globals := globals w; next_id := next_id w; lib := lib w; fs := fs w;
     cell := c; log := log w |}.
Definition set_log l (w : world) : world :=
  {| globals := globals w; next_id := next_id w; lib := lib w; fs := fs w;
     cell := cell w; log := l |}.

(** A call that leaves the notebook is recorded with the cell it is made in. *)
Definition emit (e : event scalar space) : M unit :=
  λ w, Ok tt (set_log (log w ++ [(cell w, e)]) w).

(** An operation on the working directory. *)
Definition on_fs (op : filesystem scalar → exception + filesystem scalar) : M unit :=
  λ w, match op (fs w) with
       | inr d => Ok tt (set_fs d w)
       | inl e => Raise e w
       end.

(** A call into the library that changes its hidden state. *)
Definition library (step : lib_state → lib_state) : M unit :=
  λ w, Ok tt (set_lib (step (lib w)) w).

Definition get_lib : M lib_state := λ w, Ok (lib w) w.

(** Every constructor call yields a new object. *)
Definition fresh : M nat :=
  λ w, Ok (next_id w) (set_next_id (S (next_id w)) w).

(** [name = v] *)
Definition assign (name : string) (v : value scalar space) : M unit :=
  λ w, Ok tt (set_globals (<[name := v]> (globals w)) w).

(** Reading a global name. *)
Definition load (name : string) : M (value scalar space) :=
  λ w, match globals w !! name with
       | Some v => Ok v w
       | None => Raise (NameError name) w
       end.
End Kernel.

Arguments world : clear implicits.
Arguments outcome : clear implicits.
Arguments M : clear implicits.
Arguments Ok {scalar space lib_state A} a w.
Arguments Raise {scalar space lib_state A} e w.

#[export] Instance M_ret {scalar space lib_state} : MRet (M scalar space lib_state) :=
  λ A a, ret a.
#[export] Instance M_bind {scalar space lib_state} : MBind (M scalar space lib_state) :=
  λ A B k m, bind m k.

(** ** Paths *)

(** [os.path.join(a, b)] for the two-component joins of the notebook. *)
Definition os_path_join (a b : string) : string :=
  if String.prefix "/" b then b
  else if String.eqb a "" then b
  else if String.eqb (String.substring (String.length a - 1) 1 a) "/" then a +:+ b
  else a +:+ "/" +:+ b.

Definition is_sep (c : Ascii.ascii) : bool := Ascii.eqb c "/"%char.

Fixpoint lstrip (P : Ascii.ascii → bool) (l : list Ascii.ascii) : list Ascii.ascii :=
  match l with
  | c :: l' => if P c then lstrip P l' else l
  | [] => []
  end.

(** [os.path.dirname(p)]: [p] up to its last slash, trailing slashes
    stripped unless nothing else is left. *)
Definition os_path_dirname (p : string) : string :=
  let head := lstrip (λ c, negb (is_sep c)) (reverse (String.list_ascii_of_string p)) in
  if forallb is_sep head then String.string_of_list_ascii (reverse head)
  else String.string_of_list_ascii (reverse (lstrip is_sep head)).

(** ** The working directory *)

Section Directory.
Context {scalar : Type}.

(** [os.makedirs(name, exist_ok=...)] for a name of one component: an
    existing directory is an error unless [exist_ok]; an existing file
    of that name always is. *)
Definition fs_makedirs (name : string) (exist_ok : bool) (d : filesystem scalar)
    : exception + filesystem scalar :=
  if bool_decide (name ∈ fs_dirs d) then
    if exist_ok then inr d else inl (FileExistsError name)
  else if bool_decide (name ∈ dom (fs_files d)) then
    inl (FileExistsError name)
  else
    inr {| fs_dirs := {[name]} ∪ fs_dirs d; fs_files := fs_files d |}.

(** [torch.save(obj, f)]: writes (or overwrites) the file [f]; the
    directory that is to hold it must exist. *)
Definition fs_write (obj : list scalar) (f : string) (d : filesystem scalar)
    : exception + filesystem scalar :=
  let parent := os_path_dirname f in
  if bool_decide (f ∈ fs_dirs d) then
    inl (RuntimeError "is a directory")
  else if String.eqb parent "" || bool_decide (parent ∈ fs_dirs d) then
    inr {| fs_dirs := fs_dirs d; fs_files := <[f := obj]> (fs_files d) |}
  else
    inl (RuntimeError "parent directory does not exist").

Definition empty_directory : filesystem scalar := {| fs_dirs := ∅; fs_files := ∅ |}.

(** The directories the notebook makes and the files it writes. *)
Definition notebook_directories : list string :=
  ["CartPole-v1"; "LunarLander-v2"; "LunarLanderContinuous-v2"].

Definition notebook_files : list string :=
  ["CartPole-v1/info_double_dqn_return.pt"; "CartPole-v1/info_ppo_return.pt";
   "LunarLander-v2/info_double_dqn_return.pt"; "LunarLander-v2/info_ppo_return.pt";
   "LunarLanderContinuous-v2/info_ppo_return.pt"].

(** A working directory the notebook can run in: where it makes a
    directory there is no file, and where it writes a file there is no
    directory. *)
Definition admissible (d : filesystem scalar) : Prop :=
  Forall (λ n, n ∉ dom (fs_files d)) notebook_directories ∧
  Forall (λ f, f ∉ fs_dirs d) notebook_files.
End Directory.

(** ** The calls the notebook makes *)

Section Calls.
Context {scalar space lib_state : Type} {L : Library scalar space lib_state}.

Abbreviation M := (M scalar space lib_state).
Abbreviation value := (value scalar space).
Abbreviation event := (event scalar space).

Definition load_str (name : string) : M string :=
  v ← load name;
  match v with VStr s => mret s | _ => raise (TypeError name) end.

Definition load_ints (name : string) : M (list Z) :=
  v ← load name;
  match v with VInts l => mret l | _ => raise (TypeError name) end.

Definition load_env (name : string) : M GymEnv :=
  v ← load name;
  match v with VEnv e => mret e | _ => raise (TypeError name) end.

Definition load_net (name : string) : M q_value_network :=
  v ← load name;
  match v with VNet n => mret n | _ => raise (TypeError name) end.

Definition load_agent (name : string) : M (pearl_agent space) :=
  v ← load name;
  match v with VAgent a => mret a | _ => raise (TypeError name) end.

Definition load_info (name : string) : M (info scalar) :=
  v ← load name;
  match v with VInfo i => mret i | _ => raise (TypeError name) end.

(** [d[key]] *)
Definition subscript (d : info scalar) (key : string) : M (list scalar) :=
  match dict_get key d with
  | Some v => mret v
  | None => raise (KeyError key)
  end.

(** A line of shell or IPython magic ([%pip], [!git], [%cd], ...).  What
    it does to the machine (packages installed, the clone in [Pearl]) is
    outside the model. *)
Definition magic (line : string) : M unit := emit (EvMagic line).

Definition print (text : string) (v : printed) : M unit := emit (EvPrint text v).

Definition set_seed (seed : Z) : M unit :=
  emit (EvSetSeed seed);;
  library (lib_set_seed seed).

Definition GymEnvironment (env_str : string) : M GymEnv :=
  i ← fresh;
  let e := {| env_id := i; env_name := env_str |} in
  emit (EvGymEnvironment e);;
  library (lib_GymEnvironment e);;
  mret e.

(** [env.close()] *)
Definition close (e : GymEnv) : M unit :=
  emit (EvClose e);;
  library (lib_close e).

Definition VanillaQValueNetwork (state_dim action_dim : Z) (hidden_dims : list Z)
    (output_dim : Z) : M q_value_network :=
  i ← fresh;
  let n := {| net_id := i; net_state_dim := state_dim; net_action_dim := action_dim;
              net_hidden_dims := hidden_dims; net_output_dim := output_dim |} in
  emit (EvVanillaQValueNetwork n);;
  library (lib_VanillaQValueNetwork n);;
  mret n.

Definition PearlAgent (policy_learner : policy_learner space)
    (replay_buffer : replay_buffer) : M (pearl_agent space) :=
  i ← fresh;
  let a := {| agent_id := i; agent_policy_learner := policy_learner;
              agent_replay_buffer := replay_buffer |} in
  emit (EvPearlAgent a);;
  library (lib_PearlAgent a);;
  mret a.

(** Modelled from the spec: the dictionary that the library's
    [online_learning] returns (the code of the function is missing).
    The spec gives it as "a record containing at least an
    episodic-return sequence": the entry ["return"], then whatever else
    the library records. *)
Definition training_info (kw : online_learning_kwargs space) (s : lib_state)
    : info scalar :=
  ("return", training_returns kw s) :: training_stats kw s.

Definition online_learning (kw : online_learning_kwargs space) : M (info scalar) :=
  s ← get_lib;
  let result := training_info kw s in
  emit (EvOnlineLearning kw result);;
  library (training_state kw);;
  mret result.

Definition os_makedirs (name : string) (exist_ok : bool) : M unit :=
  emit (EvMakedirs name exist_ok);;
  on_fs (fs_makedirs name exist_ok).

Definition torch_save (obj : list scalar) (f : string) : M unit :=
  emit (EvTorchSave obj f);;
  on_fs (fs_write obj f).

(** [len(l)] and [np.arange(n)] *)
Definition len {A} (l : list A) : Z := Z.of_nat (length l).

Definition np_arange (n : Z) : list Z := Z.of_nat <$> seq 0 (Z.to_nat n).

Definition plt_plot (x : list Z) (y : list scalar) (label : string) : M unit :=
  emit (EvPlot x y label).

Definition plt (c : plt_call) : M unit := emit (EvPlt c).
End Calls.

(** ** The notebook, cell by cell

    Cells are numbered as in the file, markdown cells included.  The
    [import] lines of cell 9 only bind names and are left out. *)

Section Notebook.
Context {scalar space lib_state : Type} {L : Library scalar space lib_state}.

Abbreviation M := (M scalar space lib_state).

Definition cell_1 : M unit :=
  magic "%load_ext autoreload";;
  magic "%autoreload 2".

Definition cell_3 : M unit :=
  magic "%pip uninstall Pearl -y";;
  magic "%rm -rf Pearl";;
  magic "!git clone https://github.com/facebookresearch/Pearl.git".

Definition cell_4 : M unit :=
  magic "%cd Pearl";;
  magic "%pip install .";;
  magic "%cd ..".

Definition cell_5 : M unit :=
  magic "!pip install swig".

(** Cell 6 holds comments only. *)
Definition cell_6 : M unit := mret tt.

(** The shell strips the quotes around [gymnasium[box2d]]. *)
Definition cell_7 : M unit :=
  magic "!pip install gymnasium[box2d]".

Definition cell_9 : M unit :=
  set_seed 0.

Definition cell_10 : M unit :=
  print "Python Version: " (PHost "platform.python_version()");;
  print "Torch Version: " (PHost "version('torch')");;
  print "Is Cuda Available: " (PHost "torch.cuda.is_available()");;
  print "Cuda Version: " (PHost "torch.version.cuda");;
  print "Gymnasium Version: " (PHost "version('gymnasium')");;
  print "Numpy Version: " (PHost "version('numpy')");;
  print "Pearl Version: " (PHost "version('pearl')").

Definition cell_12 : M unit :=
  assign "env_str" (VStr "CartPole-v1");;
  env_str ← load_str "env_str"; env ← GymEnvironment env_str; assign "env" (VEnv env);;
  env_str ← load_str "env_str"; print "Gym Environment: " (PStr env_str);;
  env ← load_env "env"; print "Observation Space: " (PInt (shape0 (observation_space env)));;
  env ← load_env "env"; print "Number of Actions: " (PInt (space_n (action_space env)));;
  env ← load_env "env"; print "Action Space Dimensions: " (PInt (action_dim (action_space env)));;
  env ← load_env "env";
  print "Is Action Space Continuous: " (PBool (is_continuous (action_space env)));;
  env ← load_env "env"; close env;;
  env_str ← load_str "env_str"; os_makedirs env_str true.

Definition cell_14 : M unit :=
  env_str ← load_str "env_str"; env ← GymEnvironment env_str; assign "env" (VEnv env);;
  assign "hidden_dims" (VInts [64; 64]);;
  env ← load_env "env"; hidden_dims ← load_ints "hidden_dims";
  q ← VanillaQValueNetwork (shape0 (observation_space env)) (space_n (action_space env))
        hidden_dims 1;
  assign "q_value_network" (VNet q);;
  env ← load_env "env"; q_value_network ← load_net "q_value_network";
  a ← PearlAgent
        (DoubleDQN {|
           dqn_state_dim := shape0 (observation_space env);
           dqn_action_space := action_space env;
           dqn_batch_size := 64;
           dqn_training_rounds := 10;
           dqn_soft_update_tau := Some 0.75%float;
           dqn_learning_rate := None;
           dqn_network_instance := q_value_network;
           dqn_exploration_module := None;
           dqn_action_representation_module :=
             OneHotActionTensorRepresentationModule (space_n (action_space env)) |})
        (FIFOOffPolicyReplayBuffer 10000);
  assign "double_dqn_agent" (VAgent a);;
  double_dqn_agent ← load_agent "double_dqn_agent"; env ← load_env "env";
  i ← online_learning {|
        ol_agent := Some double_dqn_agent;
        ol_env := Some env;
        ol_number_of_episodes := Some 750;
        ol_print_every_x_episodes := Some 25;
        ol_learn_every_k_steps := None;
        ol_record_period := Some 25;
        ol_learn_after_episode := Some true;
        ol_seed := Some 0 |};
  assign "info_double_dqn" (VInfo i);;
  env ← load_env "env"; close env.

Definition cell_15 : M unit :=
  info_double_dqn ← load_info "info_double_dqn"; obj ← subscript info_double_dqn "return";
  env_str ← load_str "env_str";
  torch_save obj (os_path_join env_str "info_double_dqn_return.pt");;
  info_double_dqn ← load_info "info_double_dqn"; r ← subscript info_double_dqn "return";
  y ← subscript info_double_dqn "return";
  plt_plot (np_arange (len r)) y "Double DQN";;
  plt (plt_title "Episodic returns");;
  plt (plt_xlabel "Episode");;
  plt (plt_ylabel "Return");;
  plt plt_legend;;
  plt plt_show.

Definition cell_17 : M unit :=
  env_str ← load_str "env_str"; env ← GymEnvironment env_str; assign "env" (VEnv env);;
  env ← load_env "env";
  a ← PearlAgent
        (ProximalPolicyOptimization {|
           ppo_state_dim := shape0 (observation_space env);
           ppo_use_critic := true;
           ppo_action_space := action_space env;
           ppo_actor_hidden_dims := [64; 64];
           ppo_critic_hidden_dims := [64; 64];
           ppo_critic_learning_rate := 1e-3%float;
           ppo_actor_learning_rate := 1e-3%float;
           ppo_epsilon := None;
           ppo_batch_size := 128;
           ppo_normalize_gae := None;
           ppo_training_rounds := 10;
           ppo_entropy_bonus_scaling := None;
           ppo_action_representation_module :=
             Some (OneHotActionTensorRepresentationModule (space_n (action_space env))) |})
        (OnPolicyReplayBuffer 250000);
  assign "ppo_agent" (VAgent a);;
  ppo_agent ← load_agent "ppo_agent"; env ← load_env "env";
  i ← online_learning {|
        ol_agent := Some ppo_agent;
        ol_env := Some env;
        ol_number_of_episodes := Some 750;
        ol_print_every_x_episodes := Some 25;
        ol_learn_every_k_steps := None;
        ol_record_period := Some 25;
        ol_learn_after_episode := Some true;
        ol_seed := Some 0 |};
  assign "info_ppo" (VInfo i);;
  env ← load_env "env"; close env.

Definition cell_18 : M unit :=
  info_ppo ← load_info "info_ppo"; obj ← subscript info_ppo "return";
  env_str ← load_str "env_str";
  torch_save obj (os_path_join env_str "info_ppo_return.pt");;
  info_ppo ← load_info "info_ppo"; r ← subscript info_ppo "return";
  y ← subscript info_ppo "return";
  plt_plot (np_arange (len r)) y "PPO";;
  plt (plt_title "Episodic returns");;
  plt (plt_xlabel "Episode");;
  plt (plt_ylabel "Return");;
  plt plt_legend;;
  plt plt_show.

Definition cell_20 : M unit :=
  assign "env_str" (VStr "LunarLander-v2");;
  env_str ← load_str "env_str"; os_makedirs env_str true;;
  env_str ← load_str "env_str"; env ← GymEnvironment env_str; assign "env" (VEnv env);;
  env_str ← load_str "env_str"; print "Gym Environment: " (PStr env_str);;
  env ← load_env "env"; print "Observation Space: " (PInt (shape0 (observation_space env)));;
  env ← load_env "env"; print "Number of Actions: " (PInt (space_n (action_space env)));;
  env ← load_env "env"; print "Action Space Dimensions: " (PInt (action_dim (action_space env)));;
  env ← load_env "env";
  print "Is Action Space Continuous: " (PBool (is_continuous (action_space env)));;
  env ← load_env "env"; close env;;
  env_str ← load_str "env_str"; os_makedirs env_str true.

Definition cell_22 : M unit :=
  env_str ← load_str "env_str"; env ← GymEnvironment env_str; assign "env" (VEnv env);;
  assign "hidden_dims" (VInts [64; 64]);;
  env ← load_env "env"; hidden_dims ← load_ints "hidden_dims";
  q ← VanillaQValueNetwork (shape0 (observation_space env)) (space_n (action_space env))
        hidden_dims 1;
  assign "q_value_network" (VNet q);;
  env ← load_env "env"; q_value_network ← load_net "q_value_network";
  a ← PearlAgent
        (DoubleDQN {|
           dqn_state_dim := shape0 (observation_space env);
           dqn_action_space := action_space env;
           dqn_batch_size := 32;
           dqn_training_rounds := 4;
           dqn_soft_update_tau := None;
           dqn_learning_rate := Some 1e-4%float;
           dqn_network_instance := q_value_network;
           dqn_exploration_module := Some (EGreedyExploration 0.05%float);
           dqn_action_representation_module :=
             OneHotActionTensorRepresentationModule (space_n (action_space env)) |})
        (FIFOOffPolicyReplayBuffer 1000000);
  assign "double_dqn_agent" (VAgent a);;
  double_dqn_agent ← load_agent "double_dqn_agent"; env ← load_env "env";
  i ← online_learning {|
        ol_agent := Some double_dqn_agent;
        ol_env := Some env;
        ol_number_of_episodes := Some 10000;
        ol_print_every_x_episodes := Some 100;
        ol_learn_every_k_steps := None;
        ol_record_period := Some 100;
        ol_learn_after_episode := Some true;
        ol_seed := Some 0 |};
  assign "info_double_dqn" (VInfo i);;
  env ← load_env "env"; close env.

Definition cell_23 : M unit :=
  info_double_dqn ← load_info "info_double_dqn"; obj ← subscript info_double_dqn "return";
  env_str ← load_str "env_str";
  torch_save obj (os_path_join env_str "info_double_dqn_return.pt");;
  info_double_dqn ← load_info "info_double_dqn"; r ← subscript info_double_dqn "return";
  y ← subscript info_double_dqn "return";
  plt_plot (np_arange (len r)) y "Double DQN";;
  plt (plt_title "Episodic returns");;
  plt (plt_xlabel "Episode");;
  plt (plt_ylabel "Return");;
  plt plt_legend;;
  plt plt_show.

Definition cell_25 : M unit :=
  env_str ← load_str "env_str"; env ← GymEnvironment env_str; assign "env" (VEnv env);;
  env ← load_env "env";
  a ← PearlAgent
        (ProximalPolicyOptimization {|
           ppo_state_dim := shape0 (observation_space env);
           ppo_use_critic := true;
           ppo_action_space := action_space env;
           ppo_actor_hidden_dims := [64; 64];
           ppo_critic_hidden_dims := [64; 64];
           ppo_critic_learning_rate := 1e-4%float;
           ppo_actor_learning_rate := 1e-4%float;
           ppo_epsilon := Some 0.2%float;
           ppo_batch_size := 128;
           ppo_normalize_gae := None;
           ppo_training_rounds := 10;
           ppo_entropy_bonus_scaling := Some 0.01%float;
           ppo_action_representation_module :=
             Some (OneHotActionTensorRepresentationModule (space_n (action_space env))) |})
        (OnPolicyReplayBuffer 250000);
  assign "ppo_agent" (VAgent a);;
  ppo_agent ← load_agent "ppo_agent"; env ← load_env "env";
  i ← online_learning {|
        ol_agent := Some ppo_agent;
        ol_env := Some env;
        ol_number_of_episodes := Some 10000;
        ol_print_every_x_episodes := Some 100;
        ol_learn_every_k_steps := Some 2048;
        ol_record_period := Some 100;
        ol_learn_after_episode := Some false;
        ol_seed := Some 0 |};
  assign "info_ppo" (VInfo i);;
  env ← load_env "env"; close env.

Definition cell_26 : M unit :=
  info_ppo ← load_info "info_ppo"; obj ← subscript info_ppo "return";
  env_str ← load_str "env_str";
  torch_save obj (os_path_join env_str "info_ppo_return.pt");;
  info_ppo ← load_info "info_ppo"; r ← subscript info_ppo "return";
  y ← subscript info_ppo "return";
  plt_plot (np_arange (len r)) y "PPO";;
  plt (plt_title "Episodic returns");;
  plt (plt_xlabel "Episode");;
  plt (plt_ylabel "Return");;
  plt plt_legend;;
  plt plt_show.

Definition cell_28 : M unit :=
  assign "env_str" (VStr "LunarLanderContinuous-v2");;
  env_str ← load_str "env_str"; env ← GymEnvironment env_str; assign "env" (VEnv env);;
  env_str ← load_str "env_str"; print "Gym Environment: " (PStr env_str);;
  env ← load_env "env"; print "Observation Space: " (PInt (shape0 (observation_space env)));;
  env ← load_env "env"; print "Number of Actions: " (PInt (shape0 (action_space env)));;
  env ← load_env "env"; print "Action Space Dimensions: " (PInt (action_dim (action_space env)));;
  env ← load_env "env";
  print "Is Action Space Continuous: " (PBool (is_continuous (action_space env)));;
  env ← load_env "env"; close env;;
  env_str ← load_str "env_str"; os_makedirs env_str true.

Definition cell_29 : M unit :=
  env_str ← load_str "env_str"; env ← GymEnvironment env_str; assign "env" (VEnv env);;
  env ← load_env "env";
  a ← PearlAgent
        (ContinuousProximalPolicyOptimization {|
           ppo_state_dim := shape0 (observation_space env);
           ppo_use_critic := true;
           ppo_action_space := action_space env;
           ppo_actor_hidden_dims := [64; 64];
           ppo_critic_hidden_dims := [64; 64];
           ppo_critic_learning_rate := 3e-4%float;
           ppo_actor_learning_rate := 3e-4%float;
           ppo_epsilon := Some 0.2%float;
           ppo_batch_size := 64;
           ppo_normalize_gae := Some true;
           ppo_training_rounds := 20;
           ppo_entropy_bonus_scaling := Some 0.01%float;
           ppo_action_representation_module := None |})
        (OnPolicyReplayBuffer 250000);
  assign "ppo_agent" (VAgent a);;
  ppo_agent ← load_agent "ppo_agent"; env ← load_env "env";
  i ← online_learning {|
        ol_agent := Some ppo_agent;
        ol_env := Some env;
        ol_number_of_episodes := Some 10000;
        ol_print_every_x_episodes := Some 100;
        ol_learn_every_k_steps := Some 2048;
        ol_record_period := Some 100;
        ol_learn_after_episode := Some false;
        ol_seed := Some 0 |};
  assign "info_ppo" (VInfo i);;
  env ← load_env "env"; close env.

Definition cell_30 : M unit :=
  info_ppo ← load_info "info_ppo"; obj ← subscript info_ppo "return";
  env_str ← load_str "env_str";
  torch_save obj (os_path_join env_str "info_ppo_return.pt");;
  info_ppo ← load_info "info_ppo"; r ← subscript info_ppo "return";
  y ← subscript info_ppo "return";
  plt_plot (np_arange (len r)) y "PPO";;
  plt (plt_title "Episodic returns");;
  plt (plt_xlabel "Episode");;
  plt (plt_ylabel "Return");;
  plt plt_legend;;
  plt plt_show.

(** The cells in file order; a markdown cell is kept by the level and
    title of its heading. *)
Inductive notebook_cell :=
| Markdown (level : nat) (title : string)
| Code (body : M unit).

Definition notebook : list notebook_cell := [
  Markdown 1 "Using Pearl to solve Gymnasium's Lunar Lander with DQN and PPO in discrete and continuous action spaces";
  Code cell_1;
  Markdown 1 "Pearl Installation";
  Code cell_3;
  Code cell_4;
  Code cell_5;
  Code cell_6;
  Code cell_7;
  Markdown 1 "Import Modules";
  Code cell_9;
  Code cell_10;
  Markdown 1 "CarPole-v1";
  Code cell_12;
  Markdown 2 "Double DQN";
  Code cell_14;
  Code cell_15;
  Markdown 2 "Proximal Policy Optimization (PPO)";
  Code cell_17;
  Code cell_18;
  Markdown 1 "LunarLander-v2";
  Code cell_20;
  Markdown 2 "Double DQN";
  Code cell_22;
  Code cell_23;
  Markdown 2 "Proximal Policy Optimization (PPO) - Discrete Action Spaces";
  Code cell_25;
  Code cell_26;
  Markdown 1 "LunarLanderContinuous-v2";
  Code cell_28;
  Code cell_29;
  Code cell_30
].

(** Running the cells from number [i] on, top to bottom; the run stops
    at the first exception. *)
Definition enter_cell (i : nat) : M unit := λ w, Ok tt (set_cell i w).

Fixpoint run_cells (i : nat) (cs : list notebook_cell) : M unit :=
  match cs with
  | [] => mret tt
  | Markdown _ _ :: cs' => run_cells (S i) cs'
  | Code body :: cs' => enter_cell i;; body;; run_cells (S i) cs'
  end.

(** A newly started kernel: no globals, no objects, the library's state
    and the working directory as they happen to be. *)
Definition fresh_kernel (s : lib_state) (d : filesystem scalar)
    : world scalar space lib_state :=
  {| globals := ∅; next_id := 0; lib := s; fs := d; cell := 0; log := [] |}.

Definition run_all (s : lib_state) (d : filesystem scalar) : outcome scalar space lib_state unit :=
  run_cells 0 notebook (fresh_kernel s d).

(** The trace of a run. *)
Definition trace (s : lib_state) (d : filesystem scalar) : list (nat * event scalar space) :=
  log (final (run_all s d)).

(** The section a cell belongs to: the last level-1 heading before it. *)
Fixpoint headings (i : nat) (cs : list notebook_cell) : list nat :=
  match cs with
  | [] => []
  | Markdown 1 _ :: cs' => i :: headings (S i) cs'
  | _ :: cs' => headings (S i) cs'
  end.

Definition section_of (c : nat) : option nat :=
  last (filter (λ h, h <=? c)%nat (headings 0 notebook)).
End Notebook.

(** ** Reading a trace *)

Section Reading.
Context {scalar space : Type}.

Abbreviation event := (event scalar space).
Abbreviation entry := (nat * event)%type.

(** The training-loop calls of a trace, with the cell of each. *)
Record call := {
  call_cell : nat;
  call_kw : online_learning_kwargs space;
  call_result : info scalar;
}.

Definition calls (tr : list entry) : list call :=
  omap (λ x, match x with
             | (c, EvOnlineLearning kw r) => Some {| call_cell := c; call_kw := kw; call_result := r |}
             | _ => None
             end) tr.

Definition agents (tr : list entry) : list (pearl_agent space) :=
  omap (λ x, match x with (_, EvPearlAgent a) => Some a | _ => None end) tr.

Definition environments (tr : list entry) : list GymEnv :=
  omap (λ x, match x with (_, EvGymEnvironment e) => Some e | _ => None end) tr.

Record saved := {
  saved_cell : nat;
  saved_obj : list scalar;
  saved_path : string;
}.

Definition saves (tr : list entry) : list saved :=
  omap (λ x, match x with
             | (c, EvTorchSave obj f) => Some {| saved_cell := c; saved_obj := obj; saved_path := f |}
             | _ => None
             end) tr.

Record plotted := {
  plotted_cell : nat;
  plotted_x : list Z;
  plotted_y : list scalar;
}.

Definition plots (tr : list entry) : list plotted :=
  omap (λ x, match x with
             | (c, EvPlot x y _) => Some {| plotted_cell := c; plotted_x := x; plotted_y := y |}
             | _ => None
             end) tr.

Definition call_agent_id (c : call) : option nat := agent_id <$> ol_agent (call_kw c).

Definition call_env_name (c : call) : option string := env_name <$> ol_env (call_kw c).

(** The three learners of the notebook. *)
Inductive algorithm := DQN | PPO | ContinuousPPO.

Definition algorithm_of (p : policy_learner space) : algorithm :=
  match p with
  | DoubleDQN _ => DQN
  | ProximalPolicyOptimization _ => PPO
  | ContinuousProximalPolicyOptimization _ => ContinuousPPO
  end.

Definition call_algorithm (c : call) : option algorithm :=
  (λ a, algorithm_of (agent_policy_learner a)) <$> ol_agent (call_kw c).

(** A value-based learner goes with a FIFO off-policy buffer, a
    policy-gradient learner with an on-policy buffer. *)
Definition paired (a : pearl_agent space) : Prop :=
  match agent_policy_learner a, agent_replay_buffer a with
  | DoubleDQN _, FIFOOffPolicyReplayBuffer _ => True
  | ProximalPolicyOptimization _, OnPolicyReplayBuffer _ => True
  | ContinuousProximalPolicyOptimization _, OnPolicyReplayBuffer _ => True
  | _, _ => False
  end.

(** The environments open after a trace: [GymEnvironment] opens one,
    [close] closes it. *)
Definition open_step (opened : list nat) (x : entry) : list nat :=
  match x with
  | (_, EvGymEnvironment e) => opened ++ [env_id e]
  | (_, EvClose e) => filter (λ i, i ≠ env_id e) opened
  | _ => opened
  end.

Definition open_envs (tr : list entry) : list nat := foldl open_step [] tr.

(** The life of the environments as an automaton: none open, or one. *)
Inductive lifecycle : option nat → list entry → Prop :=
| lifecycle_done : lifecycle None []
| lifecycle_open c e tr :
    lifecycle (Some (env_id e)) tr → lifecycle None ((c, EvGymEnvironment e) :: tr)
| lifecycle_close c e tr :
    lifecycle None tr → lifecycle (Some (env_id e)) ((c, EvClose e) :: tr)
| lifecycle_other st c ev tr :
    match ev with EvGymEnvironment _ | EvClose _ => False | _ => True end →
    lifecycle st tr → lifecycle st ((c, ev) :: tr).

Definition opened_in (st : option nat) : list nat :=
  match st with Some i => [i] | None => [] end.

(** The same automaton as a check that runs. *)
Fixpoint lifecycle_check (st : option nat) (tr : list entry) : bool :=
  match tr, st with
  | [], None => true
  | [], Some _ => false
  | (_, EvGymEnvironment e) :: tr', None => lifecycle_check (Some (env_id e)) tr'
  | (_, EvGymEnvironment _) :: _, Some _ => false
  | (_, EvClose e) :: tr', Some i => Nat.eqb i (env_id e) && lifecycle_check None tr'
  | (_, EvClose _) :: _, None => false
  | _ :: tr', _ => lifecycle_check st tr'
  end.

(** Training, saving, plotting: the three steps of an experiment. *)
Definition is_step (x : entry) : bool :=
  match x with
  | (_, EvOnlineLearning _ _) | (_, EvTorchSave _ _) | (_, EvPlot _ _ _) => true
  | _ => false
  end.

Inductive train_save_plot : list entry → Prop :=
| tsp_done : train_save_plot []
| tsp_experiment c1 c2 c3 kw r e obj f label tr :
    ol_env kw = Some e →
    dict_get "return" r = Some obj →
    os_path_dirname f = env_name e →
    (c1 < c2)%nat → c2 = c3 →
    train_save_plot tr →
    train_save_plot ((c1, EvOnlineLearning kw r) :: (c2, EvTorchSave obj f)
                       :: (c3, EvPlot (np_arange (len obj)) obj label) :: tr).

(** The calls that reach the library's hidden state. *)
Definition touches_library (x : entry) : bool :=
  match x with
  | (_, EvSetSeed _) | (_, EvGymEnvironment _) | (_, EvClose _)
  | (_, EvVanillaQValueNetwork _) | (_, EvPearlAgent _) | (_, EvOnlineLearning _ _) => true
  | _ => false
  end.

Definition is_seeding (x : entry) : bool :=
  match x with (_, EvSetSeed _) => true | _ => false end.

(** What the notebook hands to the library, call by call: the calls
    that reach its state, without what [online_learning] returned. *)
Definition inputs (tr : list entry) : list entry :=
  (λ x, match x with
        | (c, EvOnlineLearning kw _) => (c, EvOnlineLearning kw [])
        | _ => x
        end) <$> filter touches_library tr.

(** What a trace does to the working directory: the directory
    operations among its events, in order. *)
Definition fs_event (e : event) (d : filesystem scalar) : exception + filesystem scalar :=
  match e with
  | EvMakedirs name exist_ok => fs_makedirs name exist_ok d
  | EvTorchSave obj f => fs_write obj f d
  | _ => inr d
  end.

Fixpoint replay (tr : list entry) (d : filesystem scalar) : exception + filesystem scalar :=
  match tr with
  | [] => inr d
  | (_, e) :: tr' =>
      match fs_event e d with
      | inr d' => replay tr' d'
      | inl x => inl x
      end
  end.

Definition is_fs_event (e : event) : bool :=
  match e with EvMakedirs _ _ | EvTorchSave _ _ => true | _ => false end.

Definition call_buffer (c : call) : option replay_buffer :=
  agent_replay_buffer <$> ol_agent (call_kw c).
End Reading.

#[export] Instance algorithm_eq_dec : EqDecision algorithm.
Proof. solve_decision. Defined.

(** ** Relating a run to the notebook and to the library *)

Section Relating.
Context {scalar space lib_state : Type} {L : Library scalar space lib_state}.

(** [os.makedirs(name, exist_ok=True)] was called in an earlier cell of
    the section that cell [c] belongs to. *)
Definition made_before (tr : list (nat * event scalar space)) (c : nat) (name : string) : Prop :=
  ∃ c', (c', EvMakedirs name true) ∈ tr ∧ (c' < c)%nat ∧ section_of (L:=L) c' = section_of (L:=L) c.

(** A computation follows its trace: run in another working directory
    it does to that directory what its events say, and fails exactly
    when one of them does. *)
Definition tracks {A} (m : M scalar space lib_state A) : Prop :=
  ∀ w a w', m w = Ok a w' →
    ∃ evs, log w' = log w ++ evs ∧
      ∀ d, match replay evs d with
           | inr d' => m (set_fs d w) = Ok a (set_fs d' w')
           | inl _ => succeeded (m (set_fs d w)) = false
           end.

Definition cell_tracks (c : @notebook_cell scalar space lib_state) : Prop :=
  match c with
  | Code body => tracks body
  | Markdown _ _ => True
  end.

(** What is saved and what is plotted after a call of the training loop
    is the series the call returned. *)
Definition returned (c : call) (sv : saved) (pl : plotted) : Prop :=
  ∃ s',
    call_result c = training_info (call_kw c) s' ∧
    saved_obj sv = training_returns (call_kw c) s' ∧
    plotted_y pl = training_returns (call_kw c) s' ∧
    plotted_x pl = np_arange (len (training_returns (call_kw c) s')).
End Relating.

(** ** The training driver

    Modelled from the spec: the library's training driver, which the
    notebook calls as [online_learning] and whose code is missing.  The
    spec has it run the agent against the environment "for a fixed
    number of episodes", learning as it goes, and return the episodic
    returns, "one per completed episode".  What one episode does
    (acting, observing, learning, and how the other keywords of the
    call steer it) is the library's and is taken as given; the spec
    gives [record_period] no part in what is returned, and so it has
    none here. *)

Section Driver.
Context {scalar space lib_state : Type}.
Variable run_episode : online_learning_kwargs space → lib_state → scalar * lib_state.

Fixpoint run_episodes (n : nat) (kw : online_learning_kwargs space) (s : lib_state)
    : list scalar * lib_state :=
  match n with
  | O => ([], s)
  | S n' =>
      let r := run_episode kw s in
      let rest := run_episodes n' kw r.2 in
      (r.1 :: rest.1, rest.2)
  end.

(** The episode budget of a call; the notebook always passes one. *)
Definition episode_budget (kw : online_learning_kwargs space) : nat :=
  match ol_number_of_episodes kw with
  | Some n => Z.to_nat n
  | None => 0
  end.

Definition driver_returns (kw : online_learning_kwargs space) (s : lib_state) : list scalar :=
  (run_episodes (episode_budget kw) kw s).1.

Definition driver_state (kw : online_learning_kwargs space) (s : lib_state) : lib_state :=
  (run_episodes (episode_budget kw) kw s).2.

(** A library whose training loop is this driver. *)
Definition with_driver (L : Library scalar space lib_state) : Library scalar space lib_state :=
  {| observation_space := observation_space;
     action_space := action_space;
     shape0 := shape0;
     space_n := space_n;
     action_dim := action_dim;
     is_continuous := is_continuous;
     lib_set_seed := lib_set_seed;
     lib_GymEnvironment := lib_GymEnvironment;
     lib_close := lib_close;
     lib_VanillaQValueNetwork := lib_VanillaQValueNetwork;
     lib_PearlAgent := lib_PearlAgent;
     training_returns := driver_returns;
     training_stats := training_stats;
     training_state := driver_state |}.
End Driver.

(** ** A small library to run the notebook against

    Its hidden state is a counter that every constructor and every
    training call advances; [set_seed] sets it to the seed, and a
    training call returns the counter's value as its only return. *)

Definition counting_library : Library Z unit Z :=
  {| observation_space := λ _, tt;
     action_space := λ _, tt;
     shape0 := λ _, 4;
     space_n := λ _, 2;
     action_dim := λ _, 1;
     is_continuous := λ _, false;
     lib_set_seed := λ seed _, seed;
     lib_GymEnvironment := λ _ n, n + 1;
     lib_close := λ _ n, n;
     lib_VanillaQValueNetwork := λ _ n, n + 1;
     lib_PearlAgent := λ _ n, n + 1;
     training_returns := λ _ n, [n];
     training_stats := λ _ _, [];
     training_state := λ _ n, n + 1 |}.

(** The same, but [set_seed] leaves the counter alone. *)
Definition unseeded_library : Library Z unit Z :=
  {| observation_space := λ _, tt;
     action_space := λ _, tt;
     shape0 := λ _, 4;
     space_n := λ _, 2;
     action_dim := λ _, 1;
     is_continuous := λ _, false;
     lib_set_seed := λ _ n, n;
     lib_GymEnvironment := λ _ n, n + 1;
     lib_close := λ _ n, n;
     lib_VanillaQValueNetwork := λ _ n, n + 1;
     lib_PearlAgent := λ _ n, n + 1;
     training_returns := λ _ n, [n];
     training_stats := λ _ _, [];
     training_state := λ _ n, n + 1 |}.

(** A working directory in which [CartPole-v1] is there already, next
    to a directory and a file of the user's. *)
Definition used_directory : filesystem Z :=
  {| fs_dirs := {["CartPole-v1"]} ∪ {["data"]};
     fs_files := {["notes.txt" := [1]]} |}.

(** ** Running some of the cells, and running them again *)

Section Selecting.
Context {scalar space lib_state : Type} {L : Library scalar space lib_state}.

(** The code of cell [i], if it is a code cell. *)
Definition code_of (i : nat) : option (M scalar space lib_state unit) :=
  match notebook (L:=L) !! i with
  | Some (Code body) => Some body
  | _ => None
  end.

(** Running the listed cells in the order given, in the kernel as it
    is; the run stops at the first exception. *)
Fixpoint run_selected (cells : list nat) : M scalar space lib_state unit :=
  match cells with
  | [] => mret tt
  | i :: cells' =>
      match code_of i with
      | Some body => enter_cell i;; body;; run_selected cells'
      | None => run_selected cells'
      end
  end.

Definition all_cells : list nat := seq 0 (length (notebook (L:=L))).

(** All cells but those of [skipped]. *)
Definition all_but (skipped : list nat) : list nat :=
  filter (λ i, i ∉ skipped) all_cells.

(** The exception a run ended with, if it did. *)
Definition raised {A} (o : outcome scalar space lib_state A) : option exception :=
  match o with
  | Raise e _ => Some e
  | Ok _ _ => None
  end.


(** The agent [a] has the dimensions of the environment [e]: state
    dimension and action space read off [e], and for DoubleDQN a
    Q-network with the same dimensions and one output. *)
Definition dimensioned_for (e : GymEnv) (a : pearl_agent space) : Prop :=
  match agent_policy_learner a with
  | DoubleDQN kw =>
      dqn_state_dim kw = shape0 (observation_space e) ∧
      dqn_action_space kw = action_space e ∧
      dqn_action_representation_module kw =
        OneHotActionTensorRepresentationModule (space_n (action_space e)) ∧
      net_state_dim (dqn_network_instance kw) = shape0 (observation_space e) ∧
      net_action_dim (dqn_network_instance kw) = space_n (action_space e) ∧
      net_output_dim (dqn_network_instance kw) = 1
  | ProximalPolicyOptimization kw =>
      ppo_state_dim kw = shape0 (observation_space e) ∧
      ppo_action_space kw = action_space e ∧
      ppo_action_representation_module kw =
        Some (OneHotActionTensorRepresentationModule (space_n (action_space e)))
  | ContinuousProximalPolicyOptimization kw =>
      ppo_state_dim kw = shape0 (observation_space e) ∧
      ppo_action_space kw = action_space e ∧
      ppo_action_representation_module kw = None
  end.
End Selecting.

Section Reading2.
Context {scalar space : Type}.

(** The events of cell [c]. *)
Definition cell_events (c : nat) (tr : list (nat * event scalar space))
    : list (event scalar space) :=
  snd <$> filter (λ x, x.1 = c) tr.

(** For each training call of a trace: the environments open when it is
    made, and the environment it is passed. *)
Fixpoint open_at_calls (opened : list nat) (tr : list (nat * event scalar space))
    : list (list nat * option nat) :=
  match tr with
  | [] => []
  | (c, EvOnlineLearning kw r) :: tr' =>
      (opened, env_id <$> ol_env kw) :: open_at_calls opened tr'
  | x :: tr' => open_at_calls (open_step opened x) tr'
  end.

(** The Q-network inside an agent, if it has one. *)
Definition network_of (a : pearl_agent space) : option q_value_network :=
  match agent_policy_learner a with
  | DoubleDQN kw => Some (dqn_network_instance kw)
  | _ => None
  end.

(** The Q-networks a trace constructs and the environments it closes. *)
Definition networks (tr : list (nat * event scalar space)) : list q_value_network :=
  omap (λ x, match x with (_, EvVanillaQValueNetwork n) => Some n | _ => None end) tr.

Definition closes (tr : list (nat * event scalar space)) : list GymEnv :=
  omap (λ x, match x with (_, EvClose e) => Some e | _ => None end) tr.

(** The part of a trace that cell [c] wrote. *)
Definition cell_trace (c : nat) (tr : list (nat * event scalar space))
    : list (nat * event scalar space) :=
  filter (λ x, x.1 = c) tr.

(** What the cell of a training call constructs, trains and closes, and
    the first and the last event of the cell. *)
Record cell_objects := {
  first_event : option (event scalar space);
  environments_made : list GymEnv;
  networks_made : list q_value_network;
  agents_made : list (pearl_agent space);
  trained : list (online_learning_kwargs space);
  environments_closed : list GymEnv;
  last_event : option (event scalar space);
}.

Definition objects_of_cell (tr : list (nat * event scalar space)) (c : @call scalar space)
    : cell_objects :=
  {| first_event := head (cell_events (call_cell c) tr);
     environments_made := environments (cell_trace (call_cell c) tr);
     networks_made := networks (cell_trace (call_cell c) tr);
     agents_made := agents (cell_trace (call_cell c) tr);
     trained := call_kw <$> calls (cell_trace (call_cell c) tr);
     environments_closed := closes (cell_trace (call_cell c) tr);
     last_event := last (cell_events (call_cell c) tr) |}.

(** The objects a training call needs, read off the call: the
    environment and the agent it is passed, and the Q-network inside the
    agent if it has one. *)
Definition objects_of_call (c : @call scalar space) : option cell_objects :=
  match ol_env (call_kw c), ol_agent (call_kw c) with
  | Some e, Some a =>
      Some {| first_event := Some (EvGymEnvironment e);
              environments_made := [e];
              networks_made := option_list (network_of a);
              agents_made := [a];
              trained := [call_kw c];
              environments_closed := [e];
              last_event := Some (EvClose e) |}
  | _, _ => None
  end.

(** A training call made with objects of its own cell: the cell
    constructs one environment, first of all, and it is the one passed
    to the call; it constructs one agent, the one passed, and the
    Q-network in it and no other; it makes this one training call; and
    it closes that environment, last of all. *)
Definition own_objects (tr : list (nat * event scalar space)) (c : @call scalar space) : Prop :=
  ∃ e a,
    ol_env (call_kw c) = Some e ∧ ol_agent (call_kw c) = Some a ∧
    head (cell_events (call_cell c) tr) = Some (EvGymEnvironment e) ∧
    environments (cell_trace (call_cell c) tr) = [e] ∧
    networks (cell_trace (call_cell c) tr) = option_list (network_of a) ∧
    agents (cell_trace (call_cell c) tr) = [a] ∧
    call_kw <$> calls (cell_trace (call_cell c) tr) = [call_kw c] ∧
    closes (cell_trace (call_cell c) tr) = [e] ∧
    last (cell_events (call_cell c) tr) = Some (EvClose e).

(** What is drawn: a series under its label, or a call that decorates
    or shows the figure. *)
Inductive drawing :=
| Series (label : string)
| Decoration (c : plt_call).

Definition drawings (tr : list (nat * event scalar space)) : list (nat * drawing) :=
  omap (λ x, match x with
             | (c, EvPlot _ _ label) => Some (c, Series label)
             | (c, EvPlt p) => Some (c, Decoration p)
             | _ => None
             end) tr.

(** One figure, as each plotting cell draws it. *)
Definition figure (c : nat) (label : string) : list (nat * drawing) :=
  [(c, Series label); (c, Decoration (plt_title "Episodic returns"));
   (c, Decoration (plt_xlabel "Episode")); (c, Decoration (plt_ylabel "Return"));
   (c, Decoration plt_legend); (c, Decoration plt_show)].

(** A name of the notebook's that is a file and no directory; a
    directory in the place of one of its files. *)
Definition blocked (n : string) (d : filesystem scalar) : Prop :=
  n ∈ dom (fs_files d) ∧ n ∉ fs_dirs d.

Definition obstructed (d : filesystem scalar) : Prop :=
  Exists (λ n, blocked n d) notebook_directories ∨
  Exists (λ f, f ∈ fs_dirs d) notebook_files.


(** The names a trace makes directories of. *)
Definition made (tr : list (nat * event scalar space)) : list string :=
  omap (λ x, match x with (_, EvMakedirs name _) => Some name | _ => None end) tr.

End Reading2.

Section Alone.
Context {scalar space lib_state : Type} {L : Library scalar space lib_state}.

(** Running only the listed cells, in a new kernel. *)
Definition only (cells : list nat) (s : lib_state) (d : filesystem scalar)
    : outcome scalar space lib_state unit :=
  run_selected cells (fresh_kernel s d).

(** The cells before the first experiment: installation, imports and
    versions. *)
Definition setup_cells : list nat := seq 0 11.

Definition after_setup (cells : list nat) (s : lib_state) (d : filesystem scalar)
    : outcome scalar space lib_state unit :=
  only (setup_cells ++ cells) s d.

(** The listed cells make up an experiment of their own: run after the
    setup they raise nothing, make one training call, close what they
    open, and save once, to [path], which then holds what was
    saved. *)
Definition experiment_alone (cells : list nat) (path : string) (s : lib_state) : Prop :=
  succeeded (after_setup cells s empty_directory) = true ∧
  length (calls (log (final (after_setup cells s empty_directory)))) = 1%nat ∧
  open_envs (log (final (after_setup cells s empty_directory))) = [] ∧
  saved_path <$> saves (log (final (after_setup cells s empty_directory))) = [path] ∧
  (λ sv, fs_files (fs (final (after_setup cells s empty_directory))) !! saved_path sv) <$>
      saves (log (final (after_setup cells s empty_directory))) =
    (λ sv, Some (saved_obj sv)) <$> saves (log (final (after_setup cells s empty_directory))).

(** With cell [k] skipped the run raises nothing and writes the usual
    files after four training calls, and its [i]-th save writes the
    series that its [j]-th wrote. *)
Definition saves_again (k i j : nat) (s : lib_state) : Prop :=
  succeeded (only (all_but [k]) s empty_directory) = true ∧
  saved_path <$> saves (log (final (only (all_but [k]) s empty_directory))) = notebook_files ∧
  (saved_obj <$> saves (log (final (only (all_but [k]) s empty_directory)))) !! i =
  (saved_obj <$> saves (log (final (only (all_but [k]) s empty_directory)))) !! j ∧
  length (calls (log (final (only (all_but [k]) s empty_directory)))) = 4%nat.
End Alone.

Section Naming.
Context {scalar space : Type}.

(** The file and the label the notebook uses for a series, by the
    algorithm that was trained. *)
Definition series_file (a : algorithm) : string :=
  match a with
  | DQN => "info_double_dqn_return.pt"
  | PPO | ContinuousPPO => "info_ppo_return.pt"
  end.

Definition series_label (a : algorithm) : string :=
  match a with
  | DQN => "Double DQN"
  | PPO | ContinuousPPO => "PPO"
  end.

(** Path and label for the series of a training call: the file of its
    algorithm in the directory named after its environment. *)
Definition named_for (c : @call scalar space) : option (string * string) :=
  match call_env_name c, call_algorithm c with
  | Some n, Some a => Some (os_path_join n (series_file a), series_label a)
  | _, _ => None
  end.

Definition series_labels (tr : list (nat * event scalar space)) : list string :=
  omap (λ x, match x with (_, EvPlot _ _ label) => Some label | _ => None end) tr.
End Naming.

(** A working directory in which [LunarLander-v2] is a file. *)
Definition blocked_directory : filesystem Z :=
  {| fs_dirs := {["CartPole-v1"]};
     fs_files := {["LunarLander-v2" := [1]]} |}.

(** * Properties *)

(** ** Paths *)

Example os_path_dirname_file :
  os_path_dirname (os_path_join "CartPole-v1" "info_ppo_return.pt") = "CartPole-v1".
Proof. reflexivity. Qed.

Example os_path_dirname_bare : os_path_dirname "info_ppo_return.pt" = "".
Proof. reflexivity. Qed.

Example os_path_dirname_root : os_path_dirname "/tmp//x" = "/tmp".
Proof. reflexivity. Qed.

(** ** The model at work *)

Example notebook_has_31_cells : length (notebook (L:=counting_library)) = 31%nat.
Proof. reflexivity. Qed.

(** A plotting cell run before its training cell stops at the first name. *)
Example plot_before_training :
  run_cells 15 [Code (cell_15 : M Z unit Z ())] (fresh_kernel 0 empty_directory)
  = Raise (NameError "info_double_dqn") (set_cell 15 (fresh_kernel 0 empty_directory)).
Proof. by vm_compute. Qed.

(** Without the [os.makedirs] of cell 12, the save of cell 15 raises. *)
Example save_without_directory :
  succeeded ((assign "env_str" (VStr "CartPole-v1");;
              cell_14 (L:=counting_library);; cell_15)
               (fresh_kernel 0 empty_directory)) = false.
Proof. by vm_compute. Qed.

(** Without [exist_ok=True], making a directory that is there raises. *)
Example makedirs_twice :
  succeeded ((os_makedirs "CartPole-v1" true;; os_makedirs "CartPole-v1" false)
               (fresh_kernel (space:=unit) 0 (empty_directory (scalar:=Z)))) = false.
Proof. by vm_compute. Qed.

Example np_arange_3 : np_arange (len [7; 8; 9]) = [0; 1; 2].
Proof. reflexivity. Qed.

Example run_episodes_3 :
  run_episodes (space:=unit) (λ _ n, (10 * n, n + 1)) 3
    {| ol_agent := None; ol_env := None; ol_number_of_episodes := Some 3;
       ol_print_every_x_episodes := None; ol_learn_every_k_steps := None;
       ol_record_period := None; ol_learn_after_episode := None; ol_seed := None |} 5
  = ([50; 60; 70], 8).
Proof. reflexivity. Qed.

(** ** General facts *)

(** [np.arange(len(l))] is the list of the indices of [l]. *)
Lemma np_arange_len {A} (l : list A) : np_arange (len l) = Z.of_nat <$> seq 0 (length l).
Proof. unfold np_arange, len. by rewrite Nat2Z.id. Qed.

Section Facts.
Context {scalar space lib_state : Type}.

(** The driver yields one return per episode. *)
Lemma run_episodes_length
    (run_episode : online_learning_kwargs space → lib_state → scalar * lib_state)
    (n : nat) (kw : online_learning_kwargs space) (s : lib_state) :
  length (run_episodes run_episode n kw s).1 = n.
Proof.
  revert s. induction n as [|n IH]; intros s; simpl; [done|].
  by rewrite IH.
Qed.

Lemma driver_returns_length
    (run_episode : online_learning_kwargs space → lib_state → scalar * lib_state)
    (kw : online_learning_kwargs space) (s : lib_state) (n : Z) :
  ol_number_of_episodes kw = Some n → (0 ≤ n)%Z →
  len (driver_returns run_episode kw s) = n.
Proof.
  intros Hn Hpos. unfold len, driver_returns, episode_budget.
  rewrite run_episodes_length, Hn. lia.
Qed.

(** While the automaton accepts, at most one environment is open, and
    none is once the trace ends. *)
Lemma lifecycle_open_envs (st : option nat) (tr : list (nat * event scalar space)) :
  lifecycle st tr →
  foldl open_step (opened_in st) tr = [] ∧
  ∀ n, (length (foldl open_step (opened_in st) (take n tr)) ≤ 1)%nat.
Proof.
  assert (Hstep : ∀ a b x (l : list (nat * event scalar space)),
             open_step (opened_in a) x = opened_in b →
             (foldl open_step (opened_in b) l = [] ∧
              ∀ n, (length (foldl open_step (opened_in b) (take n l)) ≤ 1)%nat) →
             foldl open_step (opened_in a) (x :: l) = [] ∧
             ∀ n, (length (foldl open_step (opened_in a) (take n (x :: l))) ≤ 1)%nat).
  { intros a b x l Hx [He Hn]. cbn [foldl]. rewrite Hx. split; [exact He|].
    intros [|n]; cbn [take foldl]; [destruct a; simpl; lia|].
    rewrite Hx. apply Hn. }
  induction 1 as [|c e l _ IH|c e l _ IH|a c ev l Hev _ IH].
  - split; [done|]. intros n. rewrite take_nil. simpl. lia.
  - by apply (Hstep None (Some (env_id e))).
  - apply (Hstep (Some (env_id e)) None); [|done].
    simpl. by rewrite filter_cons_False, filter_nil by (intros Hne; by apply Hne).
  - apply (Hstep a a); [|done]. by destruct ev.
Qed.

Lemma lifecycle_check_sound (st : option nat) (tr : list (nat * event scalar space)) :
  lifecycle_check st tr = true → lifecycle st tr.
Proof.
  revert st. induction tr as [|[c ev] tr IH]; intros st Hcheck.
  - destruct st; [done|constructor].
  - destruct ev; simpl in Hcheck;
      try (apply lifecycle_other; [exact I|by apply IH]).
    + destruct st; [done|]. apply lifecycle_open. by apply IH.
    + destruct st as [i|]; [|done].
      apply andb_prop in Hcheck as [Hi Hrest].
      apply Nat.eqb_eq in Hi as ->. apply lifecycle_close. by apply IH.
Qed.
End Facts.

(** ** The working directory follows the trace *)

Create HintDb tracks.

Ltac unfold_cell :=
  unfold cell_1, cell_3, cell_4, cell_5, cell_6, cell_7, cell_9, cell_10, cell_12, cell_14,
    cell_15, cell_17, cell_18, cell_20, cell_22, cell_23, cell_25, cell_26, cell_28, cell_29,
    cell_30.

Section Tracking.
Context {scalar space lib_state : Type} {L : Library scalar space lib_state}.

Abbreviation M := (M scalar space lib_state).
Abbreviation entry := (nat * event scalar space)%type.

Lemma replay_app (tr1 tr2 : list entry) (d : filesystem scalar) :
  replay (tr1 ++ tr2) d =
    match replay tr1 d with
    | inr d' => replay tr2 d'
    | inl x => inl x
    end.
Proof.
  revert d. induction tr1 as [|[c e] tr1 IH]; intros d; simpl; [done|].
  destruct (fs_event e d); [done|]. apply IH.
Qed.

Lemma replay_fs_events (tr : list entry) (d : filesystem scalar) :
  replay tr d = replay (filter (λ x, is_fs_event x.2) tr) d.
Proof.
  revert d. induction tr as [|[c e] tr IH]; intros d; [done|].
  destruct (is_fs_event e) eqn:He.
  - rewrite filter_cons_True by (simpl; by rewrite He). simpl.
    destruct (fs_event e d); [done|]. apply IH.
  - rewrite filter_cons_False by (simpl; rewrite He; exact id). simpl.
    replace (fs_event e d) with (inr (A:=exception) d) by (by destruct e). apply IH.
Qed.

Lemma tracks_ret {A} (a : A) : tracks (mret a : M A).
Proof.
  intros w a' w' [= <- <-]. exists []. split; [by rewrite app_nil_r|]. by intros d.
Qed.

Lemma tracks_raise {A} (e : exception) : tracks (raise e : M A).
Proof. by intros w a w' ?. Qed.

Lemma tracks_bind {A B} (m : M A) (k : A → M B) :
  tracks m → (∀ a, tracks (k a)) → tracks (m ≫= k).
Proof.
  intros Hm Hk w b w' Hrun. unfold mbind, M_bind, bind in *.
  destruct (m w) as [a wm|] eqn:Em; [|done].
  destruct (Hm _ _ _ Em) as (evs1 & Hlog1 & Hfs1).
  destruct (Hk a _ _ _ Hrun) as (evs2 & Hlog2 & Hfs2).
  exists (evs1 ++ evs2). split; [by rewrite Hlog2, Hlog1, app_assoc|].
  intros d. rewrite replay_app. specialize (Hfs1 d).
  destruct (replay evs1 d) as [x|dm].
  - by destruct (m (set_fs d w)).
  - rewrite Hfs1. apply Hfs2.
Qed.

(** A step that neither reads nor writes the working directory and adds
    [evs], none of them a directory operation, to the trace. *)
Lemma tracks_step {A} (m : M A) :
  (∀ w a w', m w = Ok a w' →
     ∃ evs, Forall (λ x, is_fs_event x.2 = false) evs ∧ log w' = log w ++ evs ∧
            ∀ d, m (set_fs d w) = Ok a (set_fs d w')) →
  tracks m.
Proof.
  intros Hm w a w' Hrun. destruct (Hm _ _ _ Hrun) as (evs & Hevs & Hlog & Hfs).
  exists evs. split; [done|]. intros d.
  replace (replay evs d) with (inr (A:=exception) d); [apply Hfs|].
  clear -Hevs. induction Hevs as [|[c e] evs He _ IH]; [done|].
  simpl in *. by destruct e.
Qed.

Lemma tracks_emit (e : event scalar space) : is_fs_event e = false → tracks (emit e : M unit).
Proof.
  intros He. apply tracks_step. intros w a w' [= <- <-].
  exists [(cell w, e)]. split_and!; [by repeat constructor|done|done].
Qed.

Lemma tracks_library (step : lib_state → lib_state) : tracks (library step : M unit).
Proof.
  apply tracks_step. intros w a w' [= <- <-].
  exists []. split_and!; [done|by rewrite app_nil_r|done].
Qed.

Lemma tracks_get_lib : tracks (get_lib : M lib_state).
Proof.
  apply tracks_step. intros w a w' [= <- <-].
  exists []. split_and!; [done|by rewrite app_nil_r|done].
Qed.

Lemma tracks_fresh : tracks (fresh : M nat).
Proof.
  apply tracks_step. intros w a w' [= <- <-].
  exists []. split_and!; [done|by rewrite app_nil_r|done].
Qed.

Lemma tracks_assign (name : string) (v : value scalar space) : tracks (assign name v : M unit).
Proof.
  apply tracks_step. intros w a w' [= <- <-].
  exists []. split_and!; [done|by rewrite app_nil_r|done].
Qed.

Lemma tracks_load (name : string) : tracks (load name : M (value scalar space)).
Proof.
  apply tracks_step. intros w a w' Hrun. unfold load in *.
  destruct (globals w !! name) as [v|] eqn:Hv; [|done]. injection Hrun as <- <-.
  exists []. split_and!; [done|by rewrite app_nil_r|]. intros d. simpl. by rewrite Hv.
Qed.

Lemma tracks_enter_cell (i : nat) : tracks (enter_cell i : M unit).
Proof.
  apply tracks_step. intros w a w' [= <- <-].
  exists []. split_and!; [done|by rewrite app_nil_r|done].
Qed.

Lemma tracks_on_fs (e : event scalar space)
    (op : filesystem scalar → exception + filesystem scalar) :
  (∀ d, fs_event e d = op d) →
  tracks (emit e ≫= λ _, on_fs op : M unit).
Proof.
  intros Hop w a w' Hrun. unfold mbind, M_bind, bind, emit, on_fs in *. simpl in *.
  destruct (op (fs w)) as [x|d'] eqn:Hd; [done|]. injection Hrun as <- <-.
  exists [(cell w, e)]. split; [done|]. intros d. simpl. rewrite Hop.
  by destruct (op d).
Qed.

Lemma tracks_os_makedirs (name : string) (exist_ok : bool) :
  tracks (os_makedirs name exist_ok : M unit).
Proof. by apply tracks_on_fs. Qed.

Lemma tracks_torch_save (obj : list scalar) (f : string) : tracks (torch_save obj f : M unit).
Proof. by apply tracks_on_fs. Qed.

#[local] Hint Resolve tracks_ret tracks_raise tracks_library tracks_get_lib tracks_fresh
  tracks_assign tracks_load tracks_enter_cell tracks_os_makedirs tracks_torch_save : tracks.

(** Sequences of steps that follow their trace do so too. *)
Ltac track :=
  repeat first
    [ solve [eauto with tracks]
    | apply tracks_emit; reflexivity
    | simple apply tracks_bind; [|intros ?]
    | progress cbv zeta ].

Lemma tracks_load_str (name : string) : tracks (load_str name : M _).
Proof. unfold load_str. track. by destruct a; track. Qed.

Lemma tracks_load_ints (name : string) : tracks (load_ints name : M _).
Proof. unfold load_ints. track. by destruct a; track. Qed.

Lemma tracks_load_env (name : string) : tracks (load_env name : M _).
Proof. unfold load_env. track. by destruct a; track. Qed.

Lemma tracks_load_net (name : string) : tracks (load_net name : M _).
Proof. unfold load_net. track. by destruct a; track. Qed.

Lemma tracks_load_agent (name : string) : tracks (load_agent name : M _).
Proof. unfold load_agent. track. by destruct a; track. Qed.

Lemma tracks_load_info (name : string) : tracks (load_info name : M _).
Proof. unfold load_info. track. by destruct a; track. Qed.

Lemma tracks_subscript (d : info scalar) (key : string) : tracks (subscript d key : M _).
Proof. unfold subscript. by destruct (dict_get key d); track. Qed.

Lemma tracks_magic (line : string) : tracks (magic line : M _).
Proof. unfold magic. track. Qed.

Lemma tracks_print (text : string) (v : printed) : tracks (print text v : M _).
Proof. unfold print. track. Qed.

Lemma tracks_set_seed (seed : Z) : tracks (set_seed seed : M _).
Proof. unfold set_seed. track. Qed.

Lemma tracks_GymEnvironment (env_str : string) : tracks (GymEnvironment env_str : M _).
Proof. unfold GymEnvironment. track. Qed.

Lemma tracks_close (e : GymEnv) : tracks (close e : M _).
Proof. unfold close. track. Qed.

Lemma tracks_VanillaQValueNetwork (state_dim action_dim : Z) (hidden_dims : list Z)
    (output_dim : Z) :
  tracks (VanillaQValueNetwork state_dim action_dim hidden_dims output_dim : M _).
Proof. unfold VanillaQValueNetwork. track. Qed.

Lemma tracks_PearlAgent (p : policy_learner space) (b : replay_buffer) :
  tracks (PearlAgent p b : M _).
Proof. unfold PearlAgent. track. Qed.

Lemma tracks_online_learning (kw : online_learning_kwargs space) : tracks (online_learning kw : M _).
Proof. unfold online_learning. track. Qed.

Lemma tracks_plt_plot (x : list Z) (y : list scalar) (label : string) :
  tracks (plt_plot x y label : M _).
Proof. unfold plt_plot. track. Qed.

Lemma tracks_plt (c : plt_call) : tracks (plt c : M _).
Proof. unfold plt. track. Qed.

#[local] Hint Resolve tracks_load_str tracks_load_ints tracks_load_env tracks_load_net
  tracks_load_agent tracks_load_info tracks_subscript tracks_magic tracks_print
  tracks_set_seed tracks_GymEnvironment tracks_close tracks_VanillaQValueNetwork
  tracks_PearlAgent tracks_online_learning tracks_plt_plot tracks_plt : tracks.

Lemma notebook_tracks : Forall cell_tracks (notebook (L:=L)).
Proof.
  unfold notebook.
  repeat (constructor;
    [cbn [cell_tracks];
     lazymatch goal with
     | |- True => exact I
     | |- tracks _ => unfold_cell; track
     end|]).
  constructor.
Qed.

Lemma tracks_run_cells (i : nat) (cs : list (@notebook_cell scalar space lib_state)) :
  Forall cell_tracks cs → tracks (run_cells i cs).
Proof.
  intros Hcs. revert i. induction Hcs as [|[level title|body] cs Hc _ IH]; intros i; simpl.
  - apply tracks_ret.
  - apply IH.
  - simpl in Hc. track.
Qed.

Lemma succeeded_final (o : outcome scalar space lib_state ()) :
  succeeded o = true → o = Ok tt (final o).
Proof. by destruct o as [[] w|]. Qed.

(** Run in the directory [d], the notebook does to [d] what the trace of
    its run in an empty directory says, and raises exactly when the
    trace cannot be replayed on [d]. *)
Lemma directory_follows_trace (s : lib_state) (d : filesystem scalar) :
  match replay (trace s empty_directory) d with
  | inr d' => run_all s d = Ok tt (set_fs d' (final (run_all s empty_directory)))
  | inl _ => succeeded (run_all s d) = false
  end.
Proof.
  unfold trace, run_all.
  replace (@fresh_kernel scalar space lib_state s d)
    with (set_fs d (@fresh_kernel scalar space lib_state s empty_directory)) by reflexivity.
  assert (Hok : succeeded (run_cells 0 notebook (fresh_kernel s empty_directory)) = true)
    by (by vm_compute).
  apply succeeded_final in Hok.
  destruct (tracks_run_cells 0 notebook notebook_tracks _ _ _ Hok) as (evs & Hlog & Hfs).
  change (log (fresh_kernel s empty_directory) ++ evs) with evs in Hlog.
  rewrite Hlog. exact (Hfs d).
Qed.
(** With [exist_ok=True], [os.makedirs] succeeds whether or not the
    directory is there; without, it raises on a directory that is. *)
Lemma fs_makedirs_exist_ok (name : string) (d : filesystem scalar) :
  name ∉ dom (fs_files d) →
  fs_makedirs name true d = inr {| fs_dirs := {[name]} ∪ fs_dirs d; fs_files := fs_files d |}.
Proof.
  intros Hfile. unfold fs_makedirs. case_bool_decide as Hdir.
  - destruct d as [dirs files]. simpl in *. do 2 f_equal.
    symmetry. apply subseteq_union_1_L. by apply singleton_subseteq_l.
  - by rewrite bool_decide_eq_false_2.
Qed.

Lemma fs_makedirs_exists (name : string) (d : filesystem scalar) :
  name ∈ fs_dirs d → fs_makedirs name false d = inl (FileExistsError name).
Proof. intros Hdir. unfold fs_makedirs. by rewrite bool_decide_eq_true_2. Qed.

Lemma fs_write_ok (obj : list scalar) (f parent : string) (d : filesystem scalar) :
  os_path_dirname f = parent → f ∉ fs_dirs d → parent ∈ fs_dirs d →
  fs_write obj f d = inr {| fs_dirs := fs_dirs d; fs_files := <[f := obj]> (fs_files d) |}.
Proof.
  intros <- Hdir Hparent. unfold fs_write.
  rewrite bool_decide_eq_false_2 by done.
  rewrite (bool_decide_eq_true_2 _ Hparent). by rewrite orb_true_r.
Qed.

Lemma fs_write_no_parent (obj : list scalar) (f : string) (d : filesystem scalar) :
  os_path_dirname f ≠ "" → os_path_dirname f ∉ fs_dirs d → ∃ e, fs_write obj f d = inl e.
Proof.
  intros Hparent Hdir. unfold fs_write. case_bool_decide; [by eexists|].
  rewrite (bool_decide_eq_false_2 _ Hdir).
  destruct (String.eqb_spec (os_path_dirname f) ""); [done|by eexists].
Qed.

#[local] Set Warnings "-clear-no-such-hyp".

(** The trace can be replayed on every admissible directory. *)
Lemma replay_admissible (s : lib_state) (d : filesystem scalar) :
  admissible d →
  ∃ d', replay (trace s empty_directory) d = inr d' ∧
        fs_dirs d' = list_to_set notebook_directories ∪ fs_dirs d.
Proof.
  intros [Hdirs Hfiles]. rewrite replay_fs_events.
  let v := eval vm_compute in (filter (λ x, is_fs_event x.2) (trace s empty_directory)) in
  replace (filter (λ x, is_fs_event x.2) (trace s empty_directory)) with v by (by vm_compute).
  unfold notebook_directories, notebook_files in *.
  repeat match goal with
         | H : Forall _ (_ :: _) |- _ => apply Forall_cons in H as [? ?]
         | H : Forall _ [] |- _ => clear H
         end.
  cbn [replay fs_event].
  repeat first
    [ rewrite fs_makedirs_exist_ok by (cbn [fs_files fs_dirs]; set_solver)
    | erewrite fs_write_ok;
        [|by vm_compute|cbn [fs_files fs_dirs]; set_solver|cbn [fs_files fs_dirs]; set_solver]
    | progress cbv beta iota ].
  eexists; split; [reflexivity|].
  cbn [fs_dirs]. set_solver.
Qed.

Lemma outcome_in_directory (o o' : outcome scalar space lib_state ()) (d' : filesystem scalar) :
  o' = Ok tt (set_fs d' (final o)) →
  succeeded o' = true ∧ log (final o') = log (final o) ∧ fs (final o') = d'.
Proof. by intros ->. Qed.

(** In every admissible directory the notebook runs through, with the
    trace of its run in an empty directory. *)
Lemma run_in_admissible_directory (s : lib_state) (d : filesystem scalar) :
  admissible d →
  succeeded (run_all s d) = true ∧
  trace s d = trace s empty_directory ∧
  fs_dirs (fs (final (run_all s d))) = list_to_set notebook_directories ∪ fs_dirs d.
Proof.
  intros Hd. destruct (replay_admissible s d Hd) as (d' & Hreplay & Hdirs).
  pose proof (directory_follows_trace s d) as Hrun. rewrite Hreplay in Hrun.
  destruct (outcome_in_directory _ _ _ Hrun) as (Hok & Hlog & Hfs).
  split_and!; [exact Hok|exact Hlog|].
  rewrite Hfs. exact Hdirs.
Qed.
End Tracking.

(** ** The notebook's run

    The run starts from a new kernel in an empty working directory; the
    library and its state at that moment are arbitrary.  By
    [run_in_admissible_directory] the trace is the same in every
    directory the notebook can run in. *)

Section Run.
Context {scalar space lib_state : Type} {L : Library scalar space lib_state}.
Variable s : lib_state.

Abbreviation run := (trace s empty_directory).

(** C2: the agent trained on LunarLander-v2 with double Q-learning is
    the only such agent, and its replay buffer is a FIFO off-policy
    buffer of capacity 1,000,000. *)
Theorem lunar_lander_double_dqn_buffer :
  call_buffer <$>
    filter (λ c, call_env_name c = Some "LunarLander-v2" ∧ call_algorithm c = Some DQN)
           (calls run)
  = [Some (FIFOOffPolicyReplayBuffer 1000000)].
Proof. by vm_compute. Qed.

(** C3: the training loop is called five times, once in each of the
    cells 14, 17, 22, 25 and 29; five agents are constructed, each a
    different object, and each is passed to exactly one of the calls. *)
Theorem one_training_call_per_experiment :
  length (calls run) = 5%nat ∧
  call_cell <$> calls run = [14; 17; 22; 25; 29]%nat ∧
  length (agents run) = 5%nat ∧
  NoDup (agent_id <$> agents run) ∧
  call_agent_id <$> calls run = (λ a, Some (agent_id a)) <$> agents run ∧
  Forall (λ a, length (filter (λ c, call_agent_id c = Some (agent_id a)) (calls run)) = 1%nat)
         (agents run).
Proof.
  split_and!; try by vm_compute.
  - by apply (bool_decide_unpack _); vm_compute.
  - vm_compute. repeat constructor.
Qed.

(** C7: every agent the notebook constructs pairs DoubleDQN with a
    FIFOOffPolicyReplayBuffer, or ProximalPolicyOptimization or
    ContinuousProximalPolicyOptimization with an OnPolicyReplayBuffer. *)
Theorem learners_paired_with_buffers :
  Forall paired (agents run) ∧
  (λ a, algorithm_of (agent_policy_learner a)) <$> agents run = [DQN; PPO; DQN; PPO; ContinuousPPO] ∧
  agent_replay_buffer <$> agents run =
    [FIFOOffPolicyReplayBuffer 10000; OnPolicyReplayBuffer 250000;
     FIFOOffPolicyReplayBuffer 1000000; OnPolicyReplayBuffer 250000;
     OnPolicyReplayBuffer 250000].
Proof.
  split_and!; try by vm_compute.
  vm_compute. repeat constructor.
Qed.

(** C8: the five experiments are DoubleDQN and PPO on CartPole-v1,
    DoubleDQN and PPO on LunarLander-v2, and continuous PPO on
    LunarLanderContinuous-v2; no environment is constructed under any
    other identifier, and the continuous learner is trained on
    LunarLanderContinuous-v2 only. *)
Theorem experiments_algorithms_and_environments :
  (λ c, (call_env_name c, call_algorithm c)) <$> calls run =
    [(Some "CartPole-v1", Some DQN); (Some "CartPole-v1", Some PPO);
     (Some "LunarLander-v2", Some DQN); (Some "LunarLander-v2", Some PPO);
     (Some "LunarLanderContinuous-v2", Some ContinuousPPO)] ∧
  (λ a, algorithm_of (agent_policy_learner a)) <$> agents run = [DQN; PPO; DQN; PPO; ContinuousPPO] ∧
  remove_dups (env_name <$> environments run) =
    ["CartPole-v1"; "LunarLander-v2"; "LunarLanderContinuous-v2"] ∧
  call_env_name <$> filter (λ c, call_algorithm c = Some ContinuousPPO) (calls run) =
    [Some "LunarLanderContinuous-v2"] ∧
  call_algorithm <$> filter (λ c, call_env_name c = Some "LunarLanderContinuous-v2") (calls run) =
    [Some ContinuousPPO].
Proof. split_and!; by vm_compute. Qed.

(** After each training call, what is saved and plotted is what the
    call returned; the budgets and the environments of the five calls. *)
Lemma training_series : Forall3 returned (calls run) (saves run) (plots run).
Proof.
  vm_compute.
  repeat (constructor; [eexists; split_and!; reflexivity|]).
  constructor.
Qed.

Lemma episode_budgets :
  (λ c, ol_number_of_episodes (call_kw c)) <$> calls run =
    [Some 750; Some 750; Some 10000; Some 10000; Some 10000].
Proof. by vm_compute. Qed.

Lemma training_environments :
  call_env_name <$> calls run =
    [Some "CartPole-v1"; Some "CartPole-v1"; Some "LunarLander-v2"; Some "LunarLander-v2";
     Some "LunarLanderContinuous-v2"].
Proof. by vm_compute. Qed.

(** C4: each of the five calls of [online_learning] passes an agent, an
    environment, [number_of_episodes], [print_every_x_episodes] and
    [learn_after_episode] (true for three experiments, false for two);
    the dictionary it returns has the series under ["return"], and that
    series is what the next cell saves and plots. *)
Theorem training_call_arguments_and_result :
  Forall (λ c, is_Some (ol_agent (call_kw c)) ∧ is_Some (ol_env (call_kw c)) ∧
               is_Some (ol_number_of_episodes (call_kw c)) ∧
               is_Some (ol_print_every_x_episodes (call_kw c)) ∧
               is_Some (ol_learn_after_episode (call_kw c)))
         (calls run) ∧
  (λ c, ol_print_every_x_episodes (call_kw c)) <$> calls run =
    [Some 25; Some 25; Some 100; Some 100; Some 100] ∧
  (λ c, ol_learn_after_episode (call_kw c)) <$> calls run =
    [Some true; Some true; Some true; Some false; Some false] ∧
  Forall3 (λ c sv pl,
             dict_get "return" (call_result c) = Some (saved_obj sv) ∧
             plotted_y pl = saved_obj sv ∧
             (saved_cell sv = S (call_cell c) ∧ plotted_cell pl = S (call_cell c)) ∧
             returned c sv pl)
          (calls run) (saves run) (plots run).
Proof.
  split_and!; try by vm_compute.
  - vm_compute. repeat (constructor; [split_and!; eexists; reflexivity|]). constructor.
  - vm_compute.
    repeat (constructor; [split_and!; try reflexivity; eexists; split_and!; reflexivity|]).
    constructor.
Qed.

(** C5: restricted to training, saving and plotting, the run is five
    times the same three steps in this order: [online_learning], then
    [torch.save] of the returned series to a file in the directory named
    after the environment of the call, then [plt.plot] of that series
    against [np.arange] of its length.  The saves persist: they go to
    five different files, and each file holds the series saved to it.
    Each series is plotted against its indices 0, 1, ... up to its
    length. *)
Theorem save_then_plot_after_training :
  train_save_plot (filter is_step run) ∧
  length (filter is_step run) = 15%nat ∧
  saved_path <$> saves run =
    ["CartPole-v1/info_double_dqn_return.pt"; "CartPole-v1/info_ppo_return.pt";
     "LunarLander-v2/info_double_dqn_return.pt"; "LunarLander-v2/info_ppo_return.pt";
     "LunarLanderContinuous-v2/info_ppo_return.pt"] ∧
  (λ sv, fs_files (fs (final (run_all s empty_directory))) !! saved_path sv) <$> saves run =
    (λ sv, Some (saved_obj sv)) <$> saves run ∧
  plotted_y <$> plots run = saved_obj <$> saves run ∧
  Forall (λ pl, plotted_x pl = Z.of_nat <$> seq 0 (length (plotted_y pl))) (plots run).
Proof.
  split_and!; [|vm_compute; reflexivity..|].
  - vm_compute.
    repeat (eapply tsp_experiment; [reflexivity|reflexivity|reflexivity|lia|reflexivity|]).
    constructor.
  - assert (Hx : Forall (λ pl, plotted_x pl = np_arange (len (plotted_y pl))) (plots run)).
    { let v := eval vm_compute in (plots run) in
      replace (plots run) with v by (vm_compute; reflexivity).
      repeat (constructor; [reflexivity|]). constructor. }
    eapply Forall_impl; [exact Hx|]. intros pl ->. apply np_arange_len.
Qed.

(** C6: over the whole run the environments follow the automaton "none
    open, one open": each of the eight [GymEnvironment] objects is
    closed before the next is constructed, never are two open, and none
    is open at the end. *)
Theorem environments_closed_before_next :
  lifecycle None run ∧
  length (environments run) = 8%nat ∧
  open_envs run = [] ∧
  ∀ n, (length (open_envs (take n run)) ≤ 1)%nat.
Proof.
  assert (Hlife : lifecycle None run).
  { apply lifecycle_check_sound. by vm_compute. }
  split_and!; [exact Hlife|by vm_compute|..];
    apply (lifecycle_open_envs None run Hlife).
Qed.

(** C10: the run from an empty working directory raises nothing; each
    of the five [torch.save] calls writes into a directory for which
    [os.makedirs(..., exist_ok=True)] was called in an earlier cell of
    the same section, and the file is there at the end; run again in the
    directory the first run leaves behind, whatever the library's state,
    the notebook raises nothing either; nor does it in any directory,
    with whatever directories and files, where none of its three
    directory names is a file and none of its five files a directory,
    and its trace there is the same. *)
Theorem save_directories_exist :
  succeeded (run_all s empty_directory) = true ∧
  Forall (λ sv, made_before (L:=L) run (saved_cell sv) (os_path_dirname (saved_path sv)))
         (saves run) ∧
  Forall (λ sv, os_path_dirname (saved_path sv) ∈ fs_dirs (fs (final (run_all s empty_directory))) ∧
                fs_files (fs (final (run_all s empty_directory))) !! saved_path sv
                  = Some (saved_obj sv))
         (saves run) ∧
  (∀ s', succeeded (run_all s' (fs (final (run_all s empty_directory)))) = true) ∧
  (∀ s' d, admissible d →
           succeeded (run_all s' d) = true ∧ trace s' d = trace s' empty_directory).
Proof.
  split_and!.
  - by vm_compute.
  - let v := eval vm_compute in (saves run) in
    replace (saves run) with v by (by vm_compute).
    repeat (constructor;
      [ first [ exists 12%nat; split_and!;
                  [by apply (list_elem_of_lookup_2 _ 25); vm_compute|simpl; lia|by vm_compute]
              | exists 20%nat; split_and!;
                  [by apply (list_elem_of_lookup_2 _ 49); vm_compute|simpl; lia|by vm_compute]
              | exists 28%nat; split_and!;
                  [by apply (list_elem_of_lookup_2 _ 88); vm_compute|simpl; lia|by vm_compute] ]
      | ]).
    constructor.
  - let v := eval vm_compute in (saves run) in
    replace (saves run) with v by (by vm_compute).
    repeat (constructor;
      [ cbv beta; split; [by apply (bool_decide_unpack _); vm_compute|by vm_compute] | ]).
    constructor.
  - intros s'. by vm_compute.
  - intros s' d Hd. destruct (run_in_admissible_directory s' d Hd) as (Hok & Htrace & _).
    split; [exact Hok|exact Htrace].
Qed.
End Run.

(** ** Seeding *)

Section Seeding.
Context {scalar space lib_state : Type} {L : Library scalar space lib_state}.

(** C9: the first call that reaches the library's state is
    [set_seed(0)], in cell 9, and it is the only seeding of the global
    state; each of the five training calls passes [seed=0]; what the
    notebook hands to the library does not depend on the state the
    library starts in; and if seeding with 0 makes that state the same
    in two runs, the two runs have the same trace, hence save and plot
    the same series. *)
Theorem seeded_runs_agree :
  (∀ s, head (filter touches_library (trace s empty_directory)) = Some (9%nat, EvSetSeed 0)) ∧
  (∀ s, filter is_seeding (trace s empty_directory) = [(9%nat, EvSetSeed 0)]) ∧
  (∀ s, (λ c, ol_seed (call_kw c)) <$> calls (trace s empty_directory) =
          [Some 0; Some 0; Some 0; Some 0; Some 0]) ∧
  (∀ s1 s2, inputs (trace s1 empty_directory) = inputs (trace s2 empty_directory)) ∧
  (∀ s1 s2, lib_set_seed 0 s1 = lib_set_seed 0 s2 →
            trace s1 empty_directory = trace s2 empty_directory ∧
            saved_obj <$> saves (trace s1 empty_directory) =
              saved_obj <$> saves (trace s2 empty_directory)).
Proof.
  split_and!; try (intros; by vm_compute).
  intros s1 s2 Hseed.
  pose (before s0 := final (run_cells 0 (take 10 notebook) (fresh_kernel s0 empty_directory))).
  pose (after s0 w := log (final (run_cells 10 (drop 10 notebook) (set_lib s0 w)))).
  assert (Hcut : ∀ s0, trace s0 empty_directory = after (lib_set_seed 0 s0) (before s0)).
  { intros s0. by vm_compute. }
  assert (Hbefore : ∀ s0, after s0 (before s1) = after s0 (before s2)).
  { intros s0. by vm_compute. }
  assert (Htrace : trace s1 empty_directory = trace s2 empty_directory).
  { by rewrite (Hcut s1), (Hcut s2), Hseed, Hbefore. }
  split; [exact Htrace|]. by rewrite Htrace.
Qed.
End Seeding.

(** ** The series under the spec's training driver *)

Section DriverRun.
Context {scalar space lib_state : Type} (L : Library scalar space lib_state).
Variable run_episode : online_learning_kwargs space → lib_state → scalar * lib_state.
Variable s : lib_state.

Abbreviation driven := (trace (L:=with_driver run_episode L) s empty_directory).

(** Whatever the calls are: a series returned by the driver is as long
    as the episode budget of its call. *)
Lemma driver_series_lengths (cs : list call) (svs : list saved) (pls : list plotted) :
  Forall3 (returned (L:=with_driver run_episode L)) cs svs pls →
  Forall (λ c, ∃ n, ol_number_of_episodes (call_kw c) = Some n ∧ 0 ≤ n) cs →
  (λ sv, Some (len (saved_obj sv))) <$> svs = (λ c, ol_number_of_episodes (call_kw c)) <$> cs ∧
  (λ pl, Some (len (plotted_y pl))) <$> pls = (λ c, ol_number_of_episodes (call_kw c)) <$> cs.
Proof.
  induction 1 as [|c sv pl cs svs pls (s' & _ & Hsv & Hpl & _) _ IH]; intros Hbudget; [done|].
  apply Forall_cons in Hbudget as [(n & Hn & Hpos) Hbudget].
  destruct (IH Hbudget) as [IHsv IHpl].
  rewrite !fmap_cons, IHsv, IHpl, Hsv, Hpl.
  change (@training_returns _ _ _ (with_driver run_episode L)) with (driver_returns run_episode).
  by rewrite (driver_returns_length run_episode _ _ n Hn Hpos), Hn.
Qed.

(** C1: with the training driver as the spec describes it, the series
    saved and the series plotted after each of the five calls have as
    many values as the call's [number_of_episodes]: 750 for the two
    experiments on CartPole-v1, 10,000 for the three on LunarLander-v2
    and LunarLanderContinuous-v2. *)
Theorem saved_series_length_is_episode_count :
  (λ sv, Some (len (saved_obj sv))) <$> saves driven =
    (λ c, ol_number_of_episodes (call_kw c)) <$> calls driven ∧
  (λ pl, Some (len (plotted_y pl))) <$> plots driven =
    (λ c, ol_number_of_episodes (call_kw c)) <$> calls driven ∧
  (λ c, (call_env_name c, ol_number_of_episodes (call_kw c))) <$> calls driven =
    [(Some "CartPole-v1", Some 750); (Some "CartPole-v1", Some 750);
     (Some "LunarLander-v2", Some 10000); (Some "LunarLander-v2", Some 10000);
     (Some "LunarLanderContinuous-v2", Some 10000)] ∧
  (λ sv, len (saved_obj sv)) <$> saves driven = [750; 750; 10000; 10000; 10000] ∧
  (λ pl, len (plotted_y pl)) <$> plots driven = [750; 750; 10000; 10000; 10000].
Proof.
  pose proof (training_series (L:=with_driver run_episode L) s) as Hseries.
  pose proof (episode_budgets (L:=with_driver run_episode L) s) as Hbudgets.
  pose proof (training_environments (L:=with_driver run_episode L) s) as Henvs.
  revert Hseries Hbudgets Henvs.
  generalize (calls driven) (saves driven) (plots driven).
  intros cs svs pls Hseries Hbudgets Henvs.
  assert (Hpos : Forall (λ c, ∃ n, ol_number_of_episodes (call_kw c) = Some n ∧ 0 ≤ n) cs).
  { apply (Forall_fmap (λ c, ol_number_of_episodes (call_kw c)) (λ o, ∃ n, o = Some n ∧ 0 ≤ n)).
    rewrite Hbudgets. repeat (constructor; [eexists; split; [reflexivity|lia]|]). constructor. }
  destruct (driver_series_lengths cs svs pls Hseries Hpos) as [Hsv Hpl].
  rewrite Hbudgets in Hsv, Hpl.
  split_and!; [by rewrite Hsv, Hbudgets|by rewrite Hpl, Hbudgets|..].
  - destruct cs as [|c1 [|c2 [|c3 [|c4 [|c5 [|]]]]]]; try discriminate Hbudgets.
    simpl in *. congruence.
  - apply (inj (fmap Some)). rewrite <- list_fmap_compose. exact Hsv.
  - apply (inj (fmap Some)). rewrite <- list_fmap_compose. exact Hpl.
Qed.
End DriverRun.

(** ** Runs against the counting library *)

Example counting_library_series :
  saved_obj <$> saves (trace (L:=counting_library) 41 empty_directory) =
    [[4]; [7]; [12]; [15]; [19]].
Proof. by vm_compute. Qed.

(** Without the seeding the series depend on where the library starts. *)
Example unseeded_runs_differ :
  saved_obj <$> saves (trace (L:=unseeded_library) 1 empty_directory) ≠
  saved_obj <$> saves (trace (L:=unseeded_library) 2 empty_directory).
Proof. vm_compute. congruence. Qed.

Lemma seeded_runs_agree_witness :
  lib_set_seed (Library:=counting_library) 0 1 = lib_set_seed (Library:=counting_library) 0 2 ∧
  trace (L:=counting_library) 1 empty_directory = trace (L:=counting_library) 2 empty_directory.
Proof.
  split; [reflexivity|].
  exact (proj1 (proj2 (proj2 (proj2 (proj2 (seeded_runs_agree (L:=counting_library)))))
                 1 2 eq_refl)).
Defined.

Lemma save_directories_exist_witness :
  admissible used_directory ∧
  succeeded (run_all (L:=counting_library) 0 used_directory) = true ∧
  trace (L:=counting_library) 0 used_directory = trace (L:=counting_library) 0 empty_directory.
Proof.
  assert (Hd : admissible used_directory).
  { split; repeat constructor; by apply (bool_decide_unpack _); vm_compute. }
  split; [exact Hd|].
  exact (proj2 (proj2 (proj2 (proj2 (save_directories_exist (L:=counting_library) 0))))
           0 used_directory Hd).
Defined.

(** * Further properties of the notebook *)

Ltac computed := vm_compute; reflexivity.
Ltac decided := apply (bool_decide_unpack _); vm_compute; exact I.

(** ** Joining a directory and a file name *)

Section Paths.
Lemma list_ascii_of_string_app (a b : string) :
  String.list_ascii_of_string (a +:+ b) =
  String.list_ascii_of_string a ++ String.list_ascii_of_string b.
Proof. induction a as [|c a IH]; [done|]. simpl. by rewrite IH. Qed.

Lemma lstrip_app (P : ascii → bool) (l r : list ascii) :
  forallb P l = true → lstrip P (l ++ r) = lstrip P r.
Proof.
  induction l as [|c l IH]; [done|]. simpl.
  intros [Hc Hl]%andb_prop. rewrite Hc. by apply IH.
Qed.

Lemma forallb_reverse (P : ascii → bool) (l : list ascii) :
  forallb P l = true → forallb P (reverse l) = true.
Proof.
  induction l as [|c l IH]; [done|]. simpl. intros [Hc Hl]%andb_prop.
  rewrite reverse_cons, forallb_app, IH by done. simpl. by rewrite Hc.
Qed.

Lemma last_substring (a : string) (c : ascii) :
  last (String.list_ascii_of_string a) = Some c →
  String.substring (String.length a - 1) 1 a = String c "".
Proof.
  induction a as [|x a IH]; [done|].
  destruct a as [|y a].
  - simpl. by intros [= ->].
  - intros Hlast. specialize (IH Hlast).
    change (String.length (String x (String y a)) - 1)%nat with (S (String.length a)).
    change (String.length (String y a) - 1)%nat with (String.length a - 0)%nat in IH.
    rewrite Nat.sub_0_r in IH. exact IH.
Qed.

Lemma prefix_no_sep (b : string) :
  forallb (λ c, negb (is_sep c)) (String.list_ascii_of_string b) = true →
  String.prefix "/" b = false.
Proof.
  destruct b as [|c b]; [done|].
  cbn [String.list_ascii_of_string forallb]. intros [Hc _]%andb_prop.
  change (String.prefix "/" (String c b))
    with (if ascii_dec "/" c then String.prefix "" b else false).
  destruct (ascii_dec "/" c) as [<-|]; done.
Qed.

(** X1: for a directory name [a] that does not end in a slash and a
    file name [b] without a slash, [os.path.join(a, b)] is [a/b] and
    [os.path.dirname] gives [a] back: the directory a save needs is the
    one named by the first argument of the join. *)
Theorem dirname_of_join (a b : string) (c : ascii) :
  last (String.list_ascii_of_string a) = Some c → is_sep c = false →
  forallb (λ c, negb (is_sep c)) (String.list_ascii_of_string b) = true →
  os_path_join a b = a +:+ "/" +:+ b ∧
  os_path_dirname (os_path_join a b) = a.
Proof.
  intros Hlast Hc Hb.
  assert (Hjoin : os_path_join a b = a +:+ "/" +:+ b).
  { unfold os_path_join. rewrite (prefix_no_sep b Hb).
    destruct (String.eqb_spec a "") as [->|_]; [done|].
    rewrite (last_substring a c Hlast).
    unfold is_sep in Hc.
    destruct (String.eqb_spec (String c "") "/") as [[= ->]|_]; done. }
  split; [done|]. rewrite Hjoin. unfold os_path_dirname.
  rewrite !list_ascii_of_string_app, !reverse_app. cbn [String.list_ascii_of_string].
  rewrite <-(assoc_L (++)).
  rewrite lstrip_app by by apply forallb_reverse.
  destruct (reverse (String.list_ascii_of_string a)) as [|c' r] eqn:Hrev.
  { apply (f_equal reverse) in Hrev. rewrite reverse_involutive in Hrev.
    by rewrite Hrev in Hlast. }
  assert (c' = c) as ->.
  { apply (f_equal reverse) in Hrev. rewrite reverse_involutive in Hrev.
    rewrite Hrev, reverse_cons, last_snoc in Hlast. by injection Hlast. }
  change (reverse ["/"%char] ++ c :: r) with ("/"%char :: c :: r).
  change (lstrip (λ c0, negb (is_sep c0)) ("/"%char :: c :: r)) with ("/"%char :: c :: r).
  change (forallb is_sep ("/"%char :: c :: r)) with (is_sep c && forallb is_sep r).
  change (lstrip is_sep ("/"%char :: c :: r))
    with (if is_sep c then lstrip is_sep r else c :: r).
  rewrite Hc. cbn [andb].
  rewrite <-Hrev, reverse_involutive. apply String.string_of_list_ascii_of_string.
Qed.
End Paths.

Lemma dirname_of_join_witness :
  os_path_join "LunarLander-v2" "info_ppo_return.pt" = "LunarLander-v2/info_ppo_return.pt" ∧
  os_path_dirname (os_path_join "LunarLander-v2" "info_ppo_return.pt") = "LunarLander-v2".
Proof.
  exact (dirname_of_join "LunarLander-v2" "info_ppo_return.pt" "2" eq_refl eq_refl eq_refl).
Defined.

(** ** What a trace does to a directory *)

Section Replaying.
Context {scalar space : Type}.
Implicit Types (d : filesystem scalar) (tr : list (nat * event scalar space)).

#[local] Set Warnings "-clear-no-such-hyp".


Lemma fs_event_blocked (e : event scalar space) d d' (n : string) :
  blocked n d → fs_event e d = inr d' → blocked n d'.
Proof.
  intros [Hfile Hdir]. destruct e; simpl; try (by intros [= <-]).
  - unfold fs_makedirs. repeat case_bool_decide; destruct exist_ok;
      intros [= <-]; split; simpl; set_solver.
  - unfold fs_write. repeat case_match; intros [= <-].
    split; simpl; [|done]. rewrite dom_insert_L. set_solver.
Qed.

Lemma fs_event_dirs (e : event scalar space) d d' :
  fs_event e d = inr d' → fs_dirs d ⊆ fs_dirs d'.
Proof.
  destruct e; simpl; try (by intros [= <-]).
  - unfold fs_makedirs. repeat case_bool_decide; destruct exist_ok;
      intros [= <-]; simpl; set_solver.
  - unfold fs_write. repeat case_match; by intros [= <-].
Qed.

(** A trace that makes the directory [n] cannot be replayed where [n]
    is a file. *)
Lemma replay_blocked tr d (n : string) :
  blocked n d → n ∈ made tr → ∃ x, replay tr d = inl x.
Proof.
  revert d. induction tr as [|[c e] tr IH]; intros d Hblocked Hmade.
  { by apply elem_of_nil in Hmade. }
  cbn [replay]. destruct (fs_event e d) as [x|d'] eqn:He; [by eexists|].
  apply IH; [by eapply fs_event_blocked|].
  destruct e; try exact Hmade.
  unfold made in Hmade. cbn [omap] in Hmade. apply elem_of_cons in Hmade as [->|Hmade]; [|done].
  exfalso. destruct Hblocked as [Hfile Hdir]. simpl in He. unfold fs_makedirs in He.
  rewrite (bool_decide_eq_false_2 _ Hdir), (bool_decide_eq_true_2 _ Hfile) in He. done.
Qed.

(** A trace that saves to [f] cannot be replayed where [f] is a
    directory. *)
Lemma replay_occupied tr d (f : string) :
  f ∈ fs_dirs d → f ∈ saved_path <$> saves tr → ∃ x, replay tr d = inl x.
Proof.
  revert d. induction tr as [|[c e] tr IH]; intros d Hdir Hsaved.
  { by apply elem_of_nil in Hsaved. }
  cbn [replay]. destruct (fs_event e d) as [x|d'] eqn:He; [by eexists|].
  apply IH; [by eapply fs_event_dirs|].
  destruct e; try exact Hsaved.
  unfold saves in Hsaved. cbn [omap fmap list_fmap saved_path] in Hsaved.
  apply elem_of_cons in Hsaved as [->|Hsaved]; [|done].
  exfalso. simpl in He. unfold fs_write in He.
  rewrite (bool_decide_eq_true_2 _ Hdir) in He. done.
Qed.

End Replaying.

(** ** The run in a directory that is not empty *)

Section Directories.
Context {scalar space lib_state : Type} {L : Library scalar space lib_state}.
Variable s : lib_state.

Abbreviation run := (trace s empty_directory).

(** Cell 20 makes its directory twice. *)
Lemma made_directories :
  made run = ["CartPole-v1"; "LunarLander-v2"; "LunarLander-v2"; "LunarLanderContinuous-v2"].
Proof. computed. Qed.

Lemma notebook_directories_made (n : string) : n ∈ notebook_directories → n ∈ made run.
Proof.
  unfold notebook_directories. rewrite made_directories.
  intros [->|[->|[->|[]%elem_of_nil]%elem_of_cons]%elem_of_cons]%elem_of_cons.
  - by apply (list_elem_of_lookup_2 _ 0%nat).
  - by apply (list_elem_of_lookup_2 _ 1%nat).
  - by apply (list_elem_of_lookup_2 _ 3%nat).
Qed.

Lemma saved_files : saved_path <$> saves run = notebook_files.
Proof. computed. Qed.


Lemma replay_obstructed (d : filesystem scalar) :
  obstructed d → ∃ x, replay run d = inl x.
Proof.
  intros [(n & Hn & Hblocked)%Exists_exists|(f & Hf & Hdir)%Exists_exists].
  - apply (replay_blocked _ _ n Hblocked). by apply notebook_directories_made.
  - apply (replay_occupied _ _ f Hdir). by rewrite saved_files.
Qed.

Lemma raises_if_obstructed (d : filesystem scalar) :
  obstructed d → succeeded (run_all s d) = false.
Proof.
  intros [x Hx]%replay_obstructed.
  pose proof (directory_follows_trace s d) as Hrun.
  rewrite Hx in Hrun. exact Hrun.
Qed.


(** X3: where one of the notebook's directory names is a file, or one
    of its file names a directory, the run raises: [exist_ok=True] does
    not cover a file in the directory's place. *)
Theorem obstructed_directory_raises (d : filesystem scalar) :
  obstructed d → succeeded (run_all s d) = false.
Proof. exact (raises_if_obstructed d). Qed.

(** X4: in a directory where no name is both a file and a directory,
    the notebook runs through exactly when the directory is
    admissible. *)
Theorem runs_exactly_in_admissible_directories (d : filesystem scalar) :
  fs_dirs d ## dom (fs_files d) →
  succeeded (run_all s d) = true ↔ admissible d.
Proof.
  intros Hdisjoint.
  split; [|intros Hd; exact (proj1 (run_in_admissible_directory s d Hd))].
  intros Hok.
  destruct (decide (Forall (λ n, n ∉ dom (fs_files d)) notebook_directories)) as [Hdirs|Hdirs].
  - destruct (decide (Forall (λ f, f ∉ fs_dirs d) notebook_files)) as [Hfiles|Hfiles];
      [by split|].
    apply not_Forall_Exists in Hfiles; [|apply _].
    rewrite raises_if_obstructed in Hok; [done|]. right.
    eapply Exists_impl; [exact Hfiles|]. intros f Hf. by apply dec_stable.
  - apply not_Forall_Exists in Hdirs; [|apply _].
    rewrite raises_if_obstructed in Hok; [done|]. left.
    eapply Exists_impl; [exact Hdirs|]. intros n Hn%dec_stable.
    split; [done|]. intros Hdir. by apply (Hdisjoint n).
Qed.
End Directories.


Lemma obstructed_directory_raises_witness :
  obstructed blocked_directory ∧
  succeeded (run_all (L:=counting_library) 0 blocked_directory) = false.
Proof.
  assert (Hd : obstructed blocked_directory).
  { left. apply Exists_cons_tl, Exists_cons_hd. split; decided. }
  split; [exact Hd|].
  exact (obstructed_directory_raises (L:=counting_library) 0 blocked_directory Hd).
Defined.

Lemma runs_exactly_in_admissible_directories_witness :
  fs_dirs used_directory ## dom (fs_files used_directory) ∧
  (succeeded (run_all (L:=counting_library) 0 used_directory) = true ↔
   admissible used_directory).
Proof.
  assert (Hd : fs_dirs used_directory ## dom (fs_files used_directory)) by decided.
  split; [exact Hd|].
  exact (runs_exactly_in_admissible_directories (L:=counting_library) 0 used_directory Hd).
Defined.
(** ** Cells run alone, out of order, or twice *)

Section Cells.
Context {scalar space lib_state : Type} {L : Library scalar space lib_state}.
Variable s : lib_state.

Abbreviation run := (trace s empty_directory).

(** Selecting every cell is Run All. *)
Lemma run_selected_all : only all_cells s empty_directory = run_all s empty_directory.
Proof. computed. Qed.

(** X5: run right after the setup cells, a training cell raises
    [NameError] on [env_str] and a plotting cell on the series it is to
    save, also after the section's header cell; the cell that raises
    leaves no event. *)
Theorem cells_out_of_order :
  (λ i, raised (after_setup [i] s empty_directory)) <$> [14; 17; 22; 25; 29]%nat =
    replicate 5 (Some (NameError "env_str")) ∧
  (λ i, raised (after_setup [i] s empty_directory)) <$> [15; 18; 23; 26; 30]%nat =
    [Some (NameError "info_double_dqn"); Some (NameError "info_ppo");
     Some (NameError "info_double_dqn"); Some (NameError "info_ppo");
     Some (NameError "info_ppo")] ∧
  (λ i, raised (after_setup [12; i]%nat s empty_directory)) <$> [15; 18]%nat =
    [Some (NameError "info_double_dqn"); Some (NameError "info_ppo")] ∧
  (λ i, log (final (after_setup [i] s empty_directory))) <$>
      [14; 15; 17; 18; 22; 23; 25; 26; 29; 30]%nat =
    replicate 10 (log (final (after_setup [] s empty_directory))).
Proof. split_and!; computed. Qed.

(** X6: after the setup cells, each experiment runs on its own: the
    header cell of its section, its training cell and its plotting
    cell raise nothing, make one training call, leave no environment
    open and save once, to the file of the experiment. *)
Theorem experiments_self_contained :
  experiment_alone [12; 14; 15]%nat "CartPole-v1/info_double_dqn_return.pt" s ∧
  experiment_alone [12; 17; 18]%nat "CartPole-v1/info_ppo_return.pt" s ∧
  experiment_alone [20; 22; 23]%nat "LunarLander-v2/info_double_dqn_return.pt" s ∧
  experiment_alone [20; 25; 26]%nat "LunarLander-v2/info_ppo_return.pt" s ∧
  experiment_alone [28; 29; 30]%nat "LunarLanderContinuous-v2/info_ppo_return.pt" s.
Proof.
  split_and!; unfold experiment_alone; (split_and!; computed).
Qed.

(** X7: the names [info_double_dqn] and [info_ppo] are shared by the
    experiments.  With the first training cell of a name skipped the
    plotting cell raises [NameError]; with a later one skipped nothing
    is raised and the plotting cell saves the series of the experiment
    before under the new path.  With the header of LunarLander-v2
    skipped, its two experiments train on CartPole-v1 again and
    overwrite its files. *)
Theorem skipped_cells_leave_stale_names :
  raised (only (all_but [14]%nat) s empty_directory) = Some (NameError "info_double_dqn") ∧
  raised (only (all_but [17]%nat) s empty_directory) = Some (NameError "info_ppo") ∧
  saves_again 22 2 0 s ∧
  saves_again 25 3 1 s ∧
  saves_again 29 4 3 s ∧
  succeeded (only (all_but [20]%nat) s empty_directory) = true ∧
  call_env_name <$> calls (log (final (only (all_but [20]%nat) s empty_directory))) =
    [Some "CartPole-v1"; Some "CartPole-v1"; Some "CartPole-v1"; Some "CartPole-v1";
     Some "LunarLanderContinuous-v2"] ∧
  saved_path <$> saves (log (final (only (all_but [20]%nat) s empty_directory))) =
    ["CartPole-v1/info_double_dqn_return.pt"; "CartPole-v1/info_ppo_return.pt";
     "CartPole-v1/info_double_dqn_return.pt"; "CartPole-v1/info_ppo_return.pt";
     "LunarLanderContinuous-v2/info_ppo_return.pt"].
Proof.
  split_and!; try unfold saves_again; try (split_and!); computed.
Qed.

(** X8: what the names the cells assign hold when the run ends: all
    eight are bound; [env_str] and [env] are those of the last section,
    [hidden_dims] and [q_value_network] those of the last DoubleDQN
    cell, and the agents and series those of the last experiment of each
    kind. *)
Theorem names_left_in_the_kernel :
  list_to_set ["env_str"; "env"; "hidden_dims"; "q_value_network"; "double_dqn_agent";
               "ppo_agent"; "info_double_dqn"; "info_ppo"]
    ⊆ dom (globals (final (run_all s empty_directory))) ∧
  globals (final (run_all s empty_directory)) !! "env_str" =
    Some (VStr "LunarLanderContinuous-v2") ∧
  globals (final (run_all s empty_directory)) !! "hidden_dims" = Some (VInts [64; 64]) ∧
  globals (final (run_all s empty_directory)) !! "q_value_network" =
    VNet <$> last (networks run) ∧
  globals (final (run_all s empty_directory)) !! "info_double_dqn" =
    (λ c, VInfo (call_result c)) <$> calls run !! 2%nat ∧
  globals (final (run_all s empty_directory)) !! "info_ppo" =
    (λ c, VInfo (call_result c)) <$> calls run !! 4%nat ∧
  globals (final (run_all s empty_directory)) !! "double_dqn_agent" =
    VAgent <$> agents run !! 2%nat ∧
  globals (final (run_all s empty_directory)) !! "ppo_agent" =
    VAgent <$> agents run !! 4%nat ∧
  globals (final (run_all s empty_directory)) !! "env" =
    VEnv <$> last (environments run) ∧
  length (networks run) = 2%nat.
Proof. split_and!; [decided|computed..]. Qed.


(** X10: every training call is passed an agent built for the
    environment it is passed: state dimension, action space and action
    representation are read off that environment, and so are the
    dimensions of the Q-network of DoubleDQN. *)
Theorem agents_dimensioned_for_their_environment :
  Forall (λ c, ∃ e a, ol_env (call_kw c) = Some e ∧ ol_agent (call_kw c) = Some a ∧
                      dimensioned_for e a)
         (calls run).
Proof.
  vm_compute.
  repeat (constructor;
    [do 2 eexists; split; [reflexivity|split; [reflexivity|]];
     cbv beta iota; split_and!; reflexivity|]).
  constructor.
Qed.

Lemma own_objects_of_call (tr : list (nat * event scalar space)) (c : @call scalar space) :
  objects_of_call c = Some (objects_of_cell tr c) → own_objects tr c.
Proof.
  unfold objects_of_call, objects_of_cell, own_objects.
  destruct (ol_env (call_kw c)) as [e|]; [|done].
  destruct (ol_agent (call_kw c)) as [a|]; [|done].
  intros [= Hfirst Henvs Hnets Hagents Htrained Hclosed Hlast].
  by exists e, a.
Qed.

Lemma Forall_fmap_eq {A B} (f : A → option B) (g : A → B) (l : list A) :
  f <$> l = (λ x, Some (g x)) <$> l → Forall (λ x, f x = Some (g x)) l.
Proof.
  induction l as [|x l IH]; [constructor|].
  intros [= Hx Hl]. constructor; [exact Hx|by apply IH].
Qed.

(** X11: every training call is made with objects of its own cell.  The
    cell constructs one environment, before anything else, and one
    agent, and these are the ones the call is passed; it constructs the
    Q-network inside the agent and no other; it makes no other training
    call; and it closes that environment, after everything else.  When
    a training call is made the environment it is passed is the only
    one open. *)
Theorem training_on_own_open_environment :
  Forall (own_objects run) (calls run) ∧
  Forall (λ p, Some p.1 = (λ i, [i]) <$> p.2) (open_at_calls [] run) ∧
  length (open_at_calls [] run) = 5%nat.
Proof.
  split_and!; [| |computed].
  - assert (Hcells : objects_of_call <$> calls run =
                     (λ c, Some (objects_of_cell run c)) <$> calls run) by computed.
    apply Forall_fmap_eq in Hcells.
    eapply Forall_impl; [exact Hcells|]. intros c. apply own_objects_of_call.
  - vm_compute. repeat constructor.
Qed.

(** X12: each plotting cell draws one figure with one series: the
    plot, then title, axis labels, legend and show. *)
Theorem one_series_per_figure :
  drawings run =
    figure 15 "Double DQN" ++ figure 18 "PPO" ++ figure 23 "Double DQN" ++
    figure 26 "PPO" ++ figure 30 "PPO".
Proof. computed. Qed.

(** X13: every series is plotted against the indices 0, 1, ... of its
    own values, whatever the library returns: the two arguments of
    [plt.plot] have the same length. *)
Theorem plotted_against_indices :
  Forall (λ pl, plotted_x pl = Z.of_nat <$> seq 0 (length (plotted_y pl)) ∧
                length (plotted_x pl) = length (plotted_y pl))
         (plots run).
Proof.
  assert (Hx : Forall (λ pl, plotted_x pl = np_arange (len (plotted_y pl))) (plots run)).
  { let v := eval vm_compute in (plots run) in
    replace (plots run) with v by computed.
    repeat (constructor; [reflexivity|]). constructor. }
  eapply Forall_impl; [exact Hx|]. intros pl ->.
  rewrite np_arange_len. split; [done|]. by rewrite length_fmap, length_seq.
Qed.

(** X14: each series is saved under a path and plotted under a label
    named for the experiment that produced it: the file of the call's
    algorithm in the directory named after the call's environment. *)
Theorem series_named_for_their_experiment :
  named_for <$> calls run =
    (λ p, Some (saved_path p.1, p.2)) <$> zip (saves run) (series_labels run) ∧
  length (saves run) = length (calls run) ∧
  length (series_labels run) = length (calls run).
Proof. split_and!; computed. Qed.
End Cells.
